(** * Job_analyzer: the extraction-to-validated-result pipeline of [app.py]

    A shallow embedding of [src/app.py]: the two document text extractors, the
    analyzer [get_ollama_analysis] with its [try]/[except] ladder, the guard
    of [main] that decides whether the analyzer is called at all, and the
    block of [main] that shows the results.

    Conventions.
    - A Python [str] is a [string]: the UTF-8 bytes of its code points (a lone
      surrogate, which a Python [str] can hold, is written with the same
      three-byte pattern, as Python's [surrogatepass] does).
    - A Python [dict] is an association list in insertion order without
      repeated keys; [dict_set] is [d[k] = v].
    - Calls that leave the repository ([ollama.chat], [pypdf.PdfReader],
      [docx.Document], and the two lax conversions of pydantic-core whose
      lexical details differ between releases) are fields of a [world]; the
      functions of [app.py] read it and log what the user would see.
    - [json.loads] and the validation of [AnalysisResult] by pydantic (v2,
      which [model_dump] identifies; default, lax mode; extra keys ignored)
      are written out. *)

From Stdlib Require Import ZArith List String Ascii Bool Lia Permutation.
From Stdlib Require Import DecimalString.
Set Warnings "-register-all".
Import ListNotations.
Local Open Scope string_scope.
Local Open Scope Z_scope.

(** ** Text helpers *)

(** The line feed, Python's ["\n"]. *)
Definition nl : string := String "010"%char EmptyString.

(** The quotation mark, code 34. *)
Definition dquote : ascii := "034"%char.

(** Python source text is written here with a backquote wherever the source
    has a quotation mark; [py] puts the quotation marks back. *)
Fixpoint py (s : string) : string :=
  match s with
  | EmptyString => EmptyString
  | String c r => String (if Ascii.eqb c "`" then dquote else c) (py r)
  end.

(** ** Python values, as [json.loads] builds them *)

(** A float is kept as the literal it was read from: nothing in [app.py]
    computes with floats, and only pydantic's conversion to [int] looks at
    one (through the [world]). *)
Inductive float_literal : Type :=
| FNaN
| FInfinity (negative : bool)
| FDecimal (negative : bool) (digits : Z) (exp10 : Z).
    (* (-1)^negative * digits * 10^exp10, before rounding to a double *)

Inductive pyobj : Type :=
| PyNone
| PyBool (b : bool)
| PyInt (z : Z)
| PyFloat (f : float_literal)
| PyStr (s : string)
| PyList (l : list pyobj)
| PyDict (d : list (string * pyobj)).

Definition dict : Type := list (string * pyobj).

(** [d.get(k)] *)
Fixpoint dict_get (d : dict) (k : string) : option pyobj :=
  match d with
  | [] => None
  | (k', v) :: r => if String.eqb k' k then Some v else dict_get r k
  end.

(** [d[k] = v]: an existing key keeps its place, a new key goes last. *)
Fixpoint dict_set (d : dict) (k : string) (v : pyobj) : dict :=
  match d with
  | [] => [(k, v)]
  | (k', v') :: r =>
      if String.eqb k' k then (k', v) :: r else (k', v') :: dict_set r k v
  end.

Definition keys (d : dict) : list string := map fst d.

(** ** [json.loads] (CPython's scanner, default arguments) *)

(** The text is cut into tokens ([scan_once] for strings, numbers and the
    literals, white space between any two tokens), and the tokens are read
    by a machine with a stack of the open containers, which accepts what the
    recursive scanner of CPython accepts: no trailing comma, string keys, the
    whole text consumed. Besides JSON proper, Python reads [NaN], [Infinity]
    and [-Infinity]. A key given twice keeps its first place and its last
    value. The limits of an interpreter (the recursion depth, the number of
    digits of an integer literal) are not modelled. *)

Module json.

Definition is_digit (c : ascii) : bool :=
  let n := N_of_ascii c in (48 <=? n)%N && (n <=? 57)%N.

Definition digit_val (c : ascii) : Z := Z.of_N (N_of_ascii c) - 48.

Definition hex_val (c : ascii) : option Z :=
  let n := Z.of_N (N_of_ascii c) in
  if (48 <=? n) && (n <=? 57) then Some (n - 48)
  else if (97 <=? n) && (n <=? 102) then Some (n - 87)
  else if (65 <=? n) && (n <=? 70) then Some (n - 55)
  else None.

(** The four hex digits of a [\uXXXX] escape. *)
Definition hex4 (a b c d : ascii) : option Z :=
  match hex_val a, hex_val b, hex_val c, hex_val d with
  | Some x, Some y, Some z, Some t => Some (((x * 16 + y) * 16 + z) * 16 + t)
  | _, _, _, _ => None
  end.

Definition byte_of (z : Z) : ascii := ascii_of_N (Z.to_N z).

(** The bytes of one code point. *)
Definition utf8 (c : Z) : list ascii :=
  if c <? 128 then [byte_of c]
  else if c <? 2048 then
    [byte_of (192 + c / 64); byte_of (128 + c mod 64)]
  else if c <? 65536 then
    [byte_of (224 + c / 4096); byte_of (128 + (c / 64) mod 64);
     byte_of (128 + c mod 64)]
  else
    [byte_of (240 + c / 262144); byte_of (128 + (c / 4096) mod 64);
     byte_of (128 + (c / 64) mod 64); byte_of (128 + c mod 64)].

Definition is_high_surrogate (c : Z) : bool := (55296 <=? c) && (c <=? 56319).
Definition is_low_surrogate (c : Z) : bool := (56320 <=? c) && (c <=? 57343).
Definition join_surrogates (hi lo : Z) : Z :=
  65536 + ((hi - 55296) * 1024 + (lo - 56320)).

(** The character a one-letter escape stands for. *)
Definition escape (c : ascii) : option ascii :=
  if Ascii.eqb c dquote then Some dquote
  else if Ascii.eqb c "\" then Some "\"%char
  else if Ascii.eqb c "/" then Some "/"%char
  else if Ascii.eqb c "b" then Some "008"%char
  else if Ascii.eqb c "f" then Some "012"%char
  else if Ascii.eqb c "n" then Some "010"%char
  else if Ascii.eqb c "r" then Some "013"%char
  else if Ascii.eqb c "t" then Some "009"%char
  else None.

Definition prepend (cs : list ascii) (r : option (list ascii * nat))
  : option (list ascii * nat) :=
  match r with
  | Some (s, n) => Some ((cs ++ s)%list, n)
  | None => None
  end.

(** [scanstring], strict: [s] starts just after the opening quotation mark and
    [n] characters were read so far; the result is the decoded text and the
    number of characters read up to and including the closing mark. *)
Fixpoint scanstring (s : list ascii) (n : nat) : option (list ascii * nat) :=
  match s with
  | [] => None                                   (* Unterminated string *)
  | c :: r =>
      if Ascii.eqb c dquote then Some ([], S n)
      else if Ascii.eqb c "\" then
        match r with
        | [] => None
        | e :: r1 =>
            if Ascii.eqb e "u" then
              match r1 with
              | h1 :: h2 :: h3 :: h4 :: r2 =>
                  match hex4 h1 h2 h3 h4 with
                  | None => None                 (* Invalid \uXXXX escape *)
                  | Some cp =>
                      match r2 with
                      | b :: u :: k1 :: k2 :: k3 :: k4 :: r3 =>
                          if is_high_surrogate cp && Ascii.eqb b "\"
                             && Ascii.eqb u "u"
                          then
                            match hex4 k1 k2 k3 k4 with
                            | None => None
                            | Some cp2 =>
                                if is_low_surrogate cp2
                                then prepend (utf8 (join_surrogates cp cp2))
                                       (scanstring r3 (12 + n))
                                else prepend (utf8 cp) (scanstring r2 (6 + n))
                            end
                          else prepend (utf8 cp) (scanstring r2 (6 + n))
                      | _ => prepend (utf8 cp) (scanstring r2 (6 + n))
                      end
                  end
              | _ => None
              end
            else
              match escape e with
              | Some ch => prepend [ch] (scanstring r1 (2 + n))
              | None => None                     (* Invalid \escape *)
              end
        end
      else if (N_of_ascii c <? 32)%N then None   (* Invalid control character *)
      else prepend [c] (scanstring r (S n))
  end.

(** The longest run of digits at the head of [s], and what follows it. *)
Fixpoint span_digits (s : list ascii) : list ascii * list ascii :=
  match s with
  | c :: r =>
      if is_digit c then let (ds, rest) := span_digits r in (c :: ds, rest)
      else ([], s)
  | [] => ([], [])
  end.

Definition digits_val (ds : list ascii) : Z :=
  fold_left (fun acc c => acc * 10 + digit_val c) ds 0.

Definition signed (negative : bool) (z : Z) : Z := if negative then - z else z.

(** [_match_number]: an integer part ([0], or a digit from 1 to 9 and more
    digits), then a fraction and an exponent when they are complete. An
    integer literal becomes an [int], anything else a [float]. *)
Definition match_number (s : list ascii) : option (pyobj * nat) :=
  let (negative, s1) :=
    match s with
    | c :: r => if Ascii.eqb c "-" then (true, r) else (false, s)
    | [] => (false, s)
    end in
  match s1 with
  | d :: r =>
      if is_digit d then
        let (ip, s2) := if Ascii.eqb d "0" then ([d], r) else span_digits s1 in
        let (fp, s3) :=
          match s2 with
          | p :: ((d2 :: _) as r2) =>
              if Ascii.eqb p "." && is_digit d2 then span_digits r2 else ([], s2)
          | _ => ([], s2)
          end in
        let (ep, s4) :=
          match s3 with
          | e :: r3 =>
              if Ascii.eqb e "e" || Ascii.eqb e "E" then
                let (eneg, r4) :=
                  match r3 with
                  | sg :: t =>
                      if Ascii.eqb sg "-" then (true, t)
                      else if Ascii.eqb sg "+" then (false, t)
                      else (false, r3)
                  | [] => (false, r3)
                  end in
                let (eds, r5) := span_digits r4 in
                match eds with
                | [] => (None, s3)               (* no digit: backtrack *)
                | _ => (Some (signed eneg (digits_val eds)), r5)
                end
              else (None, s3)
          | [] => (None, s3)
          end in
        let used := (List.length s - List.length s4)%nat in
        match fp, ep with
        | [], None => Some (PyInt (signed negative (digits_val ip)), used)
        | _, _ =>
            let x := match ep with Some x => x | None => 0 end in
            Some (PyFloat (FDecimal negative (digits_val (ip ++ fp))
                             (x - Z.of_nat (List.length fp))), used)
        end
      else None
  | [] => None
  end.

(** [starts_with w s]: [s] begins with the characters of [w]. *)
Fixpoint starts_with (w : string) (s : list ascii) : bool :=
  match w with
  | EmptyString => true
  | String c w' =>
      match s with
      | c' :: s' => Ascii.eqb c c' && starts_with w' s'
      | [] => false
      end
  end.

Inductive token : Type :=
| TLBrace | TRBrace | TLBracket | TRBracket | TColon | TComma
| TValue (v : pyobj).

Definition is_whitespace (c : ascii) : bool :=
  Ascii.eqb c " " || Ascii.eqb c "009" || Ascii.eqb c "010" || Ascii.eqb c "013".

(** What the next token is, and how many characters it takes ([scan_once]
    for the scalars). *)
Definition scan_token (c : ascii) (r : list ascii) : option (token * nat) :=
  let s := c :: r in
  if Ascii.eqb c "{" then Some (TLBrace, 1%nat)
  else if Ascii.eqb c "}" then Some (TRBrace, 1%nat)
  else if Ascii.eqb c "[" then Some (TLBracket, 1%nat)
  else if Ascii.eqb c "]" then Some (TRBracket, 1%nat)
  else if Ascii.eqb c ":" then Some (TColon, 1%nat)
  else if Ascii.eqb c "," then Some (TComma, 1%nat)
  else if Ascii.eqb c dquote then
    match scanstring r 1 with
    | Some (cs, n) => Some (TValue (PyStr (string_of_list_ascii cs)), n)
    | None => None
    end
  else if starts_with "null" s then Some (TValue PyNone, 4%nat)
  else if starts_with "true" s then Some (TValue (PyBool true), 4%nat)
  else if starts_with "false" s then Some (TValue (PyBool false), 5%nat)
  else if starts_with "NaN" s then Some (TValue (PyFloat FNaN), 3%nat)
  else if starts_with "Infinity" s then
    Some (TValue (PyFloat (FInfinity false)), 8%nat)
  else if starts_with "-Infinity" s then
    Some (TValue (PyFloat (FInfinity true)), 9%nat)
  else
    match match_number s with
    | Some (v, n) => Some (TValue v, n)
    | None => None
    end.

(** The tokens of a text; [skip] counts the characters that still belong to
    the token read last. [None]: some character starts no token. *)
Fixpoint tokens (skip : nat) (s : list ascii) : option (list token) :=
  match s with
  | [] => Some []
  | c :: r =>
      match skip with
      | S k => tokens k r
      | O =>
          if is_whitespace c then tokens 0 r
          else
            match scan_token c r with
            | Some (t, n) =>
                match tokens (Nat.pred n) r with
                | Some ts => Some (t :: ts)
                | None => None
                end
            | None => None
            end
      end
  end.

(** The containers that are open, innermost first. *)
Inductive frame : Type :=
| InList (rev_items : list pyobj)
| InDict (d : dict)                       (* between the pairs *)
| InDictValue (d : dict) (key : string).  (* after [key :] *)

Inductive mode : Type :=
| MValue          (* a value must start here *)
| MValueOrClose   (* just after an opening bracket *)
| MKeyOrClose     (* just after an opening brace *)
| MKey            (* after a comma in an object *)
| MColon (key : string)
| MAfter          (* after a value in a container *)
| MDone (v : pyobj).

(** A value is complete: it goes to the innermost open container. *)
Definition deliver (v : pyobj) (st : list frame) : option (list frame * mode) :=
  match st with
  | [] => Some ([], MDone v)
  | InList acc :: st' => Some (InList (v :: acc) :: st', MAfter)
  | InDictValue d k :: st' => Some (InDict (dict_set d k v) :: st', MAfter)
  | InDict _ :: _ => None
  end.

Definition start_value (t : token) (st : list frame)
  : option (list frame * mode) :=
  match t with
  | TValue v => deliver v st
  | TLBracket => Some (InList [] :: st, MValueOrClose)
  | TLBrace => Some (InDict [] :: st, MKeyOrClose)
  | _ => None
  end.

Definition close_list (st : list frame) : option (list frame * mode) :=
  match st with
  | InList acc :: st' => deliver (PyList (rev acc)) st'
  | _ => None
  end.

Definition close_dict (st : list frame) : option (list frame * mode) :=
  match st with
  | InDict d :: st' => deliver (PyDict d) st'
  | _ => None
  end.

Definition step (st : list frame) (m : mode) (t : token)
  : option (list frame * mode) :=
  match m with
  | MValue => start_value t st
  | MValueOrClose =>
      match t with TRBracket => close_list st | _ => start_value t st end
  | MKeyOrClose =>
      match t with
      | TRBrace => close_dict st
      | TValue (PyStr k) => Some (st, MColon k)
      | _ => None
      end
  | MKey =>
      match t with TValue (PyStr k) => Some (st, MColon k) | _ => None end
  | MColon k =>
      match t, st with
      | TColon, InDict d :: st' => Some (InDictValue d k :: st', MValue)
      | _, _ => None
      end
  | MAfter =>
      match t, st with
      | TComma, InList _ :: _ => Some (st, MValue)
      | TComma, InDict _ :: _ => Some (st, MKey)
      | TRBracket, _ => close_list st
      | TRBrace, _ => close_dict st
      | _, _ => None
      end
  | MDone _ => None                              (* Extra data *)
  end.

Fixpoint run (st : list frame) (m : mode) (ts : list token) : option pyobj :=
  match ts with
  | [] => match st, m with [], MDone v => Some v | _, _ => None end
  | t :: ts' =>
      match step st m t with
      | Some (st', m') => run st' m' ts'
      | None => None
      end
  end.

(** [json.loads(s)]: the value, or [None] where Python raises
    [json.JSONDecodeError]. *)
Definition loads (s : string) : option pyobj :=
  match tokens 0 (list_ascii_of_string s) with
  | Some ts => run [] MValue ts
  | None => None
  end.

End json.

(** ** Exceptions, the world outside the repository, and what the user sees *)

(** Where pydantic found a value wrong: a field, or an item of a list field. *)
Inductive error_type : Type :=
| Missing | IntExpected | StringExpected | ListExpected.

Record line_error : Type :=
  { loc : string * option nat; kind : error_type }.

Inductive exn : Type :=
| ResponseError (error : string)            (* ollama.ResponseError *)
| JSONDecodeError                           (* json.JSONDecodeError *)
| ValidationError (errors : list line_error) (* pydantic.ValidationError *)
| TypeError (msg : string)
| OtherException (class msg : string)       (* any other class under Exception *)
| NotAnException (class : string).          (* KeyboardInterrupt, SystemExit *)

(** [isinstance(e, Exception)] *)
Definition is_Exception (e : exn) : bool :=
  match e with NotAnException _ => false | _ => true end.

Inductive outcome (A : Type) : Type :=
| Returned (a : A)
| Raised (e : exn).
Arguments Returned {A} a.
Arguments Raised {A} e.

Record chat_message : Type := { role : string; content : string }.

(** [page.extract_text()] of a [pypdf] page, and a [docx] paragraph. *)
Record PageObject : Type := { extract_text : outcome string }.
Record Paragraph : Type := { text : string }.

(** The file the uploader hands over ([file_type] is its [.type]). *)
Record UploadedFile : Type :=
  { file_name : string; file_type : string; file_bytes : string }.

Record world : Type :=
  { (* [ollama.chat(model=, messages=, format=)] followed by
       [response['message']['content']], which may be [None] *)
    ollama_chat :
      string -> list chat_message -> string -> outcome (option string);
    (* [pypdf.PdfReader(file).pages] *)
    pdf_pages : string -> outcome (list PageObject);
    (* [docx.Document(file).paragraphs] *)
    docx_paragraphs : string -> outcome (list Paragraph);
    (* pydantic-core, lax mode: the [int] a [str] or a [float] converts to *)
    str_as_int : string -> option Z;
    float_as_int : float_literal -> option Z }.

(** An f-string that ends in [{e}] keeps the exception it prints. *)
Inductive message : Type :=
| Text (s : string)
| FText (prefix : string) (e : exn).

(** The log: calls to the model server and what is reported to the user.
    Layout calls of Streamlit are not logged. *)
Inductive event : Type :=
| OllamaChat (model : string) (messages : list chat_message) (format : string)
| StError (m : message)
| StWarning (m : message)
| StResults (result : dict).       (* lines 137-184, the results block *)

(** A computation reads the world, logs events, and returns or raises. *)
Definition M (A : Type) : Type := world -> outcome A * list event.

Definition ret {A} (a : A) : M A := fun _ => (Returned a, []).

Definition raise {A} (e : exn) : M A := fun _ => (Raised e, []).

Definition bind {A B} (c : M A) (k : A -> M B) : M B :=
  fun w =>
    match c w with
    | (Returned a, t) => let (r, t') := k a w in (r, (t ++ t')%list)
    | (Raised e, t) => (Raised e, t)
    end.

Notation "x <- c ;; k" := (bind c (fun x => k))
  (at level 61, c at next level, right associativity).
Notation "c ;;; k" := (bind c (fun _ => k))
  (at level 61, right associativity).

(** [try: body except ...: handler] where [handler] re-raises what no clause
    matches. *)
Definition try_except {A} (body : M A) (handler : exn -> M A) : M A :=
  fun w =>
    match body w with
    | (Returned a, t) => (Returned a, t)
    | (Raised e, t) => let (r, t') := handler e w in (r, (t ++ t')%list)
    end.

Definition log (ev : event) : M unit := fun _ => (Returned tt, [ev]).

Definition ask {A} (f : world -> outcome A) : M A := fun w => (f w, []).

Definition st_error (m : message) : M unit := log (StError m).
Definition st_warning (m : message) : M unit := log (StWarning m).

(** [for x in l: s = body(s, x)] *)
Fixpoint for_each {A S} (l : list A) (s : S) (body : S -> A -> M S) : M S :=
  match l with
  | [] => ret s
  | x :: r => s' <- body s x ;; for_each r s' body
  end.

(** ** Configuration and data model (lines 9-19) *)

Definition MODEL_NAME : string := "llama3.1:8b".

Record AnalysisResult : Type :=
  { matching_score : Z;
    existing_skills : list string;
    missing_skills : list string;
    recommended_improvements : list string;
    suitability_status : string }.

Definition field_names : list string :=
  ["matching_score"; "existing_skills"; "missing_skills";
   "recommended_improvements"; "suitability_status"].

Definition validation (A : Type) : Type := (list line_error + A)%type.

Definition wrong (name : string) (item : option nat) (k : error_type)
  : list line_error :=
  [{| loc := (name, item); kind := k |}].

(** A field annotated [int], lax mode: an [int] as it is, a [bool] as 0 or 1,
    a [float] or a [str] when pydantic-core converts it. *)
Definition validate_int (w : world) (name : string) (v : pyobj) : validation Z :=
  match v with
  | PyInt z => inr z
  | PyBool b => inr (if b then 1 else 0)
  | PyFloat f =>
      match float_as_int w f with
      | Some z => inr z
      | None => inl (wrong name None IntExpected)
      end
  | PyStr s =>
      match str_as_int w s with
      | Some z => inr z
      | None => inl (wrong name None IntExpected)
      end
  | _ => inl (wrong name None IntExpected)
  end.

(** A field annotated [str]: only a [str] (numbers are not converted). *)
Definition validate_str (name : string) (v : pyobj) : validation string :=
  match v with
  | PyStr s => inr s
  | _ => inl (wrong name None StringExpected)
  end.

(** The items of a [List[str]], from index [i] on: every item is checked and
    every wrong one reported. *)
Fixpoint validate_items (name : string) (i : nat) (l : list pyobj)
  : validation (list string) :=
  match l with
  | [] => inr []
  | v :: r =>
      match v, validate_items name (S i) r with
      | PyStr s, inr ss => inr (s :: ss)
      | PyStr _, inl es => inl es
      | _, inr _ => inl (wrong name (Some i) StringExpected)
      | _, inl es => inl (wrong name (Some i) StringExpected ++ es)%list
      end
  end.

(** A field annotated [List[str]]: a [list] (of the values JSON gives, nothing
    else is list-like) whose items are [str]. *)
Definition validate_list_str (name : string) (v : pyobj)
  : validation (list string) :=
  match v with
  | PyList l => validate_items name 0 l
  | _ => inl (wrong name None ListExpected)
  end.

(** A required field: looked up by its name, then validated. *)
Definition required {A} (d : dict) (name : string)
    (validate : string -> pyobj -> validation A) : validation A :=
  match dict_get d name with
  | Some v => validate name v
  | None => inl (wrong name None Missing)
  end.

Definition errors_of {A} (r : validation A) : list line_error :=
  match r with inl es => es | inr _ => [] end.

(** The model validator: the fields in the order of the class, every error
    collected; keys that are no field are not looked at (extra = ignore). *)
Definition validate_model (w : world) (d : dict) : validation AnalysisResult :=
  let r1 := required d "matching_score" (validate_int w) in
  let r2 := required d "existing_skills" validate_list_str in
  let r3 := required d "missing_skills" validate_list_str in
  let r4 := required d "recommended_improvements" validate_list_str in
  let r5 := required d "suitability_status" validate_str in
  match r1, r2, r3, r4, r5 with
  | inr a, inr b, inr c, inr e, inr f =>
      inr {| matching_score := a; existing_skills := b; missing_skills := c;
             recommended_improvements := e; suitability_status := f |}
  | _, _, _, _, _ =>
      inl (errors_of r1 ++ errors_of r2 ++ errors_of r3 ++ errors_of r4
           ++ errors_of r5)%list
  end.

(** [AnalysisResult( **data )]: the double star needs a mapping. *)
Definition AnalysisResult_new (data : pyobj) : M AnalysisResult :=
  match data with
  | PyDict d =>
      fun w =>
        match validate_model w d with
        | inr a => (Returned a, [])
        | inl es => (Raised (ValidationError es), [])
        end
  | _ => raise (TypeError "argument after ** must be a mapping")
  end.

Definition str_list (l : list string) : pyobj := PyList (map PyStr l).

(** [validated_data.model_dump()] *)
Definition model_dump (a : AnalysisResult) : dict :=
  [("matching_score", PyInt (matching_score a));
   ("existing_skills", str_list (existing_skills a));
   ("missing_skills", str_list (missing_skills a));
   ("recommended_improvements", str_list (recommended_improvements a));
   ("suitability_status", PyStr (suitability_status a))].

(** ** Helper functions (lines 22-34) *)

Definition extract_text_from_pdf (file : UploadedFile) : M string :=
  pages <- ask (fun w => pdf_pages w (file_bytes file)) ;;
  for_each pages ""
    (fun text page => t <- ask (fun _ => extract_text page) ;; ret (text ++ t)).

Definition extract_text_from_docx (file : UploadedFile) : M string :=
  paragraphs <- ask (fun w => docx_paragraphs w (file_bytes file)) ;;
  for_each paragraphs ""
    (fun text_ para => ret (text_ ++ (text para ++ nl))).

(** ** Backend logic (lines 37-96) *)

Definition unlines (l : list string) : string := String.concat nl l.

Definition system_prompt : string :=
  unlines
    [""; py
"    You are a strict, evidence-based AI Career Coach and ATS (Applicant Tracking System) specialist. "; py
"    Your goal is to compare a candidate's resume against a job description (JD) based ONLY on the provided text.";
     ""; py
"    CRITICAL RULES:"; py
"    1. **NO HALLUCINATIONS:** Do not assume the candidate has a skill unless it is explicitly stated in the Resume text. Even if a candidate is a `Senior Developer,` do not assume they know `Docker` unless the word `Docker` appears in the resume."; py
"    2. **Existing Skills:** This list must ONLY contain technical skills and keywords that appear in BOTH the JD and the Resume."; py
"    3. **Missing Skills:** This list must contain critical skills found in the JD that are completely ABSENT from the Resume."; py
"    4. **Synonyms:** You may recognize standard synonyms (e.g., `React` = `React.js`, `AWS` = `Amazon Web Services`), but if the concept is missing, mark it as missing."; py
"    5. **Output Format:** You must output ONLY valid JSON.";
     "    "].

Definition user_prompt (resume_text jd_text : string) : string :=
  unlines
    [""; py
"    Please perform a deep gap analysis on the following data:";
     "    "; py
"    **Job Description:**";
     "    " ++ jd_text;
     ""; py
"    **Resume:**";
     "    " ++ resume_text;
     ""; py
"    Return the analysis in the following JSON format:"; py
"    {"; py
"        `matching_score`: <integer>,"; py
"        `existing_skills`: [<list of strings>],"; py
"        `missing_skills`: [<list of strings>],"; py
"        `recommended_improvements`: [<list of strings>],"; py
"        `suitability_status`: `<One of: Highly Recommended, Qualified, Potential Match, Not Qualified>`"; py
"    }";
     "    "].

(** The two messages of lines 76-79. *)
Definition messages (resume_text jd_text : string) : list chat_message :=
  [{| role := "system"; content := system_prompt |};
   {| role := "user"; content := user_prompt resume_text jd_text |}].

Definition chat_request (resume_text jd_text : string) : event :=
  OllamaChat MODEL_NAME (messages resume_text jd_text) "json".

(** What the model server answers to that request. *)
Definition model_reply (w : world) (resume_text jd_text : string)
  : outcome (option string) :=
  ollama_chat w MODEL_NAME (messages resume_text jd_text) "json".

(** [ollama.chat(...)] and [response['message']['content']] (lines 76-81). *)
Definition chat (resume_text jd_text : string) : M (option string) :=
  log (chat_request resume_text jd_text) ;;;
  ask (fun w => model_reply w resume_text jd_text).

(** [json.loads(content)] (line 84); [None] is no [str]. *)
Definition json_loads (content : option string) : M pyobj :=
  match content with
  | None => raise (TypeError "the JSON object must be str, bytes or bytearray")
  | Some s =>
      match json.loads s with
      | Some v => ret v
      | None => raise JSONDecodeError
      end
  end.

Definition parse_failure : message :=
  Text "Failed to parse LLM response. The model did not return valid JSON.".

(** The three [except] clauses, in their order (lines 88-96). *)
Definition handler (e : exn) : M (option dict) :=
  match e with
  | ResponseError _ => st_error (FText "Ollama API Error: " e) ;;; ret None
  | JSONDecodeError => st_error parse_failure ;;; ret None
  | _ =>
      if is_Exception e
      then st_error (FText "An unexpected error occurred: " e) ;;; ret None
      else raise e
  end.

Definition get_ollama_analysis (resume_text jd_text : string) : M (option dict) :=
  try_except
    (content <- chat resume_text jd_text ;;
     data <- json_loads content ;;
     validated_data <- AnalysisResult_new data ;;
     ret (Some (model_dump validated_data)))
    handler.

(** ** Frontend (lines 99-184) *)

Definition pdf_type : string := "application/pdf".
Definition docx_type : string :=
  "application/vnd.openxmlformats-officedocument.wordprocessingml.document".

(** Lines 116-124: [resume_text] stays empty without a file, for another
    type, and when the extraction raises. *)
Definition upload_column (uploaded_file : option UploadedFile) : M string :=
  match uploaded_file with
  | None => ret ""
  | Some f =>
      try_except
        (if String.eqb (file_type f) pdf_type then extract_text_from_pdf f
         else if String.eqb (file_type f) docx_type then extract_text_from_docx f
         else ret "")
        (fun e =>
           if is_Exception e
           then st_error (FText "Error extracting text: " e) ;;; ret ""
           else raise e)
  end.

(** The truth value of a [str]. *)
Definition truthy (s : string) : bool :=
  match s with EmptyString => false | _ => true end.

Definition missing_input : message :=
  Text "Please provide both the Job Description and the Resume.".

(** Lines 129-184. A [dict] is true when it has a key. *)
Definition on_click (jd_input resume_text : string) : M unit :=
  if negb (truthy jd_input) || negb (truthy resume_text)
  then st_warning missing_input
  else
    result <- get_ollama_analysis resume_text jd_input ;;
    match result with
    | Some ((_ :: _) as r) => log (StResults r)
    | _ => ret tt
    end.

(** [main], from the values its widgets return: the text area, the uploader
    and the button. *)
Definition main (jd_input : string) (uploaded_file : option UploadedFile)
    (analyze_btn : bool) : M unit :=
  resume_text <- upload_column uploaded_file ;;
  if analyze_btn then on_click jd_input resume_text else ret tt.

(** ** The results block (lines 137-184) *)

(** An event [StResults r] in the log of [main] stands for this block run on
    [r]. *)

(** What the block puts on the page ([st.columns] puts nothing). *)
Inductive widget : Type :=
| Divider
| Header (body : string)
| Subheader (body : string)
| Metric (label value delta delta_color : string)
| SuccessBox (body : string)
| ErrorBox (body : string)
| InfoBox (body : string)
| WarningBox (body : string)
| Markdown (body : string)
| WriteText (body : string).

(** The block on a dictionary completes, or Python raises in it, or the
    dictionary holds a value whose display is not modelled: a [float] for
    the score, a status that is no [str], a list field that is no [list] of
    [str]. *)
Inductive shown (A : Type) : Type :=
| Done (a : A)
| Fails (e : exn)
| NotModelled.
Arguments Done {A} a.
Arguments Fails {A} e.
Arguments NotModelled {A}.

Definition R (A : Type) : Type := (shown A * list widget)%type.

Definition done {A} (a : A) : R A := (Done a, []).

Definition rbind {A B} (c : R A) (k : A -> R B) : R B :=
  match c with
  | (Done a, ws) => let (r, ws') := k a in (r, (ws ++ ws')%list)
  | (Fails e, ws) => (Fails e, ws)
  | (NotModelled, ws) => (NotModelled, ws)
  end.

Notation "x <~ c ;; k" := (rbind c (fun x => k))
  (at level 61, c at next level, right associativity).
Notation "c ~;; k" := (rbind c (fun _ => k))
  (at level 61, right associativity).

Definition show (x : widget) : R unit := (Done tt, [x]).

(** [result[key]] *)
Definition getitem (result : dict) (key : string) : R pyobj :=
  match dict_get result key with
  | Some v => done v
  | None => (Fails (OtherException "KeyError" key), [])
  end.

(** [str(z)] for an [int]. *)
Definition decimal (z : Z) : string := NilZero.string_of_int (Z.to_int z).

(** The score as the comparisons of lines 148-149 read it, with its text in
    the f-string of line 151; a [bool] is an [int] to Python, and a value
    that is no number cannot be compared with 80. *)
Definition number (v : pyobj) : R (Z * string) :=
  match v with
  | PyInt z => done (z, decimal z)
  | PyBool true => done (1, "True")
  | PyBool false => done (0, "False")
  | PyFloat _ => (NotModelled, [])
  | _ => (Fails (TypeError "'>=' not supported between these types"), [])
  end.

Definition status_text (v : pyobj) : R string :=
  match v with
  | PyStr s => done s
  | _ => (NotModelled, [])
  end.

Fixpoint item_texts (l : list pyobj) : option (list string) :=
  match l with
  | [] => Some []
  | PyStr s :: r =>
      match item_texts r with Some ss => Some (s :: ss) | None => None end
  | _ :: _ => None
  end.

Definition texts (v : pyobj) : R (list string) :=
  match v with
  | PyList l =>
      match item_texts l with
      | Some ss => done ss
      | None => (NotModelled, [])
      end
  | _ => (NotModelled, [])
  end.

(** [for x in l: st.markdown(line(x))] *)
Fixpoint show_each (l : list string) (line : string -> string) : R unit :=
  match l with
  | [] => done tt
  | x :: r => show (Markdown (line x)) ~;; show_each r line
  end.

Definition results_block (result : dict) : R unit :=
  show Divider ~;;
  show (Header "Analysis Results") ~;;
  (* left column *)
  score <~ getitem result "matching_score" ;;
  n <~ number score ;;
  let delta_color := "normal" in
  let delta_color :=
    if 80 <=? fst n then "normal"
    else if fst n <? 50 then "inverse"
    else delta_color in
  delta <~ getitem result "suitability_status" ;;
  status <~ status_text delta ;;
  show (Metric "Matching Score" (snd n ++ "%") status delta_color) ~;;
  show (if String.eqb status "Highly Recommended" then SuccessBox status
        else if String.eqb status "Not Qualified" then ErrorBox status
        else InfoBox status) ~;;
  (* right column *)
  show (Subheader "💡 Recommended Improvements") ~;;
  tips <~ getitem result "recommended_improvements" ;;
  tips <~ texts tips ;;
  show_each tips (fun tip => "- " ++ tip) ~;;
  show Divider ~;;
  (* the two columns of skills *)
  show (Subheader "✅ Existing Skills") ~;;
  existing <~ getitem result "existing_skills" ;;
  existing <~ texts existing ;;
  match existing with
  | [] => show (WriteText "No matching skills found.")
  | _ =>
      show (Markdown
              (String.concat " " (map (fun skill => "`" ++ skill ++ "`") existing)))
  end ~;;
  show (Subheader "⚠️ Missing / Gap Skills") ~;;
  missing <~ getitem result "missing_skills" ;;
  missing <~ texts missing ;;
  match missing with
  | [] => show (SuccessBox "No major skill gaps detected!")
  | _ =>
      show (Markdown
              (String.concat " " (map (fun skill => "**" ++ skill ++ ",**") missing)))
      ~;;
      show (WarningBox
              "Adding these skills to your resume contextually will increase your skill matching score.")
  end.

(** ** Vocabulary of the specification *)

(** The log holds no call to the model server. *)
Definition no_chat (t : list event) : bool :=
  forallb (fun ev => match ev with OllamaChat _ _ _ => false | _ => true end) t.

(** The number of calls to the model server in a log. *)
Definition chat_count (t : list event) : nat :=
  List.length
    (filter (fun ev => match ev with OllamaChat _ _ _ => true | _ => false end) t).

(** The four values of [suitabilityStatus] (section 3 of the specification,
    spelled as line 19 spells them). *)
Definition suitability_values : list string :=
  ["Highly Recommended"; "Qualified"; "Potential Match"; "Not Qualified"].

Definition is_suitability_value (s : string) : bool :=
  existsb (String.eqb s) suitability_values.

Definition score_in_range (z : Z) : bool := (0 <=? z) && (z <=? 100).

Definition is_str (v : pyobj) : bool :=
  match v with PyStr _ => true | _ => false end.

Definition is_str_list (v : pyobj) : bool :=
  match v with PyList l => forallb is_str l | _ => false end.

Definition is_int (v : pyobj) : bool :=
  match v with PyInt _ => true | _ => false end.

(** The schema of section 3 read on JSON types: every field present, an
    integer, three arrays of strings, a string. *)
Definition has_declared_types (d : dict) : bool :=
  match dict_get d "matching_score", dict_get d "existing_skills",
        dict_get d "missing_skills", dict_get d "recommended_improvements",
        dict_get d "suitability_status" with
  | Some a, Some b, Some c, Some e, Some f =>
      is_int a && is_str_list b && is_str_list c && is_str_list e && is_str f
  | _, _, _, _, _ => false
  end.

(** What pydantic takes for an [int] in lax mode. *)
Definition int_like (w : world) (v : pyobj) : bool :=
  match v with
  | PyInt _ | PyBool _ => true
  | PyFloat f => match float_as_int w f with Some _ => true | None => false end
  | PyStr s => match str_as_int w s with Some _ => true | None => false end
  | _ => false
  end.

(** A field is as the class requires when it is present and its value passes
    [check]. *)
Definition field_ok (d : dict) (name : string) (check : pyobj -> bool) : bool :=
  match dict_get d name with Some v => check v | None => false end.

(** An object violates the schema the code enforces when a field is missing,
    a list field is not an array of strings, the status is not a string, or
    the score is nothing pydantic converts to an integer. *)
Definition schema_violation (w : world) (d : dict) : bool :=
  negb (field_ok d "matching_score" (int_like w)
        && field_ok d "existing_skills" is_str_list
        && field_ok d "missing_skills" is_str_list
        && field_ok d "recommended_improvements" is_str_list
        && field_ok d "suitability_status" is_str).

(** The ways an analysis fails (section 7): the call to the model server
    raises, the response has no text, the text is no JSON, the JSON value is
    no object, the object violates the schema. *)
Inductive failure (w : world) (resume_text jd_text : string) : Prop :=
| InferenceError (e : exn) :
    model_reply w resume_text jd_text = Raised e ->
    failure w resume_text jd_text
| NoContent :
    model_reply w resume_text jd_text = Returned None ->
    failure w resume_text jd_text
| MalformedOutput (content : string) :
    model_reply w resume_text jd_text = Returned (Some content) ->
    json.loads content = None ->
    failure w resume_text jd_text
| NotAnObject (content : string) (v : pyobj) :
    model_reply w resume_text jd_text = Returned (Some content) ->
    json.loads content = Some v ->
    (forall d, v <> PyDict d) ->
    failure w resume_text jd_text
| SchemaViolation (content : string) (d : dict) :
    model_reply w resume_text jd_text = Returned (Some content) ->
    json.loads content = Some (PyDict d) ->
    schema_violation w d = true ->
    failure w resume_text jd_text.

(** All the strings of a list, one after the other. *)
Definition concat_all (l : list string) : string := fold_right append "" l.

(** The number of line feeds in a text. *)
Fixpoint count_nl (s : string) : nat :=
  match s with
  | EmptyString => O
  | String c r => ((if Ascii.eqb c "010" then 1 else 0) + count_nl r)%nat
  end.

(** The lines of a text, each ended by a line feed (a last line may lack it). *)
Fixpoint lines (s : string) : list string :=
  match s with
  | EmptyString => []
  | String c r =>
      if Ascii.eqb c "010" then EmptyString :: lines r
      else
        match lines r with
        | [] => [String c EmptyString]
        | l :: ls => String c l :: ls
        end
  end.

(** ** Worlds and inputs of the scenarios *)

(** A run of decimal digits, with a minus sign or without, as an integer. *)
Definition decimal_str_as_int (s : string) : option Z :=
  let cs := list_ascii_of_string s in
  let (negative, ds) :=
    match cs with
    | c :: r => if Ascii.eqb c "-" then (true, r) else (false, cs)
    | [] => (false, cs)
    end in
  match ds with
  | [] => None
  | _ =>
      if forallb json.is_digit ds
      then Some (json.signed negative (json.digits_val ds))
      else None
  end.

(** A decimal literal without fraction and exponent effect, below 2^53. *)
Definition small_float_as_int (f : float_literal) : option Z :=
  match f with
  | FDecimal negative ds x =>
      let v := if 0 <=? x then ds * 10 ^ x else ds / 10 ^ (- x) in
      if (if 0 <=? x then true else ds mod 10 ^ (- x) =? 0) && (v <? 2 ^ 53)
      then Some (json.signed negative v) else None
  | _ => None
  end.

Definition no_reader {A} (_ : string) : outcome A :=
  Raised (OtherException "ValueError" "not a document").

(** A world whose model server answers every request with [reply] (the model
    is mocked, as in the scenarios of section 8). *)
Definition mock_world (reply : outcome (option string)) : world :=
  {| ollama_chat := fun _ _ _ => reply;
     pdf_pages := no_reader;
     docx_paragraphs := no_reader;
     str_as_int := decimal_str_as_int;
     float_as_int := small_float_as_int |}.

(** A world with one readable document of each kind; the model is not used. *)
Definition document_world (pages : list PageObject) (paragraphs : list Paragraph)
  : world :=
  {| ollama_chat := fun _ _ _ => Raised (ResponseError "model not found");
     pdf_pages := fun _ => Returned pages;
     docx_paragraphs := fun _ => Returned paragraphs;
     str_as_int := decimal_str_as_int;
     float_as_int := small_float_as_int |}.

Definition resume_A : string := "Experienced in Python, Docker, and AWS.".
Definition jd_A : string :=
  "Looking for a Python developer with Kubernetes experience.".

(** Scenario A, the mocked model response. *)
Definition response_A : string := py
  "{`matching_score`: 60, `existing_skills`: [`Python`], `missing_skills`: [`Kubernetes`], `recommended_improvements`: [`Add Kubernetes experience`], `suitability_status`: `Potential Match`}".

Definition result_A : AnalysisResult :=
  {| matching_score := 60;
     existing_skills := ["Python"];
     missing_skills := ["Kubernetes"];
     recommended_improvements := ["Add Kubernetes experience"];
     suitability_status := "Potential Match" |}.

(** Scenario C: the score is 150. *)
Definition response_C : string := py
  "{`matching_score`: 150, `existing_skills`: [`Python`], `missing_skills`: [`Kubernetes`], `recommended_improvements`: [`Add Kubernetes experience`], `suitability_status`: `Potential Match`}".

(** A status outside the four values. *)
Definition response_unlisted_status : string := py
  "{`matching_score`: 60, `existing_skills`: [`Python`], `missing_skills`: [`Kubernetes`], `recommended_improvements`: [`Add Kubernetes experience`], `suitability_status`: `Maybe`}".

(** The score given as a JSON boolean, and as a JSON string. *)
Definition response_bool_score : string := py
  "{`matching_score`: true, `existing_skills`: [`Python`], `missing_skills`: [`Kubernetes`], `recommended_improvements`: [`Add Kubernetes experience`], `suitability_status`: `Potential Match`}".

Definition response_str_score : string := py
  "{`matching_score`: `60`, `existing_skills`: [`Python`], `missing_skills`: [`Kubernetes`], `recommended_improvements`: [`Add Kubernetes experience`], `suitability_status`: `Potential Match`}".

(** A field is missing; a list holds a number. *)
Definition response_missing_field : string := py
  "{`matching_score`: 60, `existing_skills`: [`Python`], `missing_skills`: [`Kubernetes`, 7], `suitability_status`: `Potential Match`}".




Definition sample_pdf : UploadedFile :=
  {| file_name := "cv.pdf"; file_type := pdf_type; file_bytes := "%PDF-1.7" |}.
Definition sample_docx : UploadedFile :=
  {| file_name := "cv.docx"; file_type := docx_type; file_bytes := "PK" |}.

(** Three pages, the second a scanned image. *)
Definition sample_pages : list PageObject :=
  [{| extract_text := Returned "Jane Doe" |};
   {| extract_text := Returned "" |};
   {| extract_text := Returned "Python, Docker" |}].

Definition sample_paragraphs : list Paragraph :=
  [{| text := "Jane Doe" |}; {| text := "" |}; {| text := "Python, Docker" |}].


(** ** More vocabulary and scenarios *)

(** The badge under the metric, by status. *)
Definition badge (status : string) : widget :=
  if String.eqb status "Highly Recommended" then SuccessBox status
  else if String.eqb status "Not Qualified" then ErrorBox status
  else InfoBox status.

(** The page of a validated result, in closed form: the colour of the metric
    depends on the score being below 50 and on nothing else. *)
Definition page (a : AnalysisResult) : list widget :=
  ([Divider; Header "Analysis Results";
    Metric "Matching Score" (decimal (matching_score a) ++ "%")%string
      (suitability_status a)
      (if matching_score a <? 50 then "inverse" else "normal");
    badge (suitability_status a);
    Subheader "💡 Recommended Improvements"]
   ++ map (fun tip => Markdown ("- " ++ tip)%string) (recommended_improvements a)
   ++ [Divider; Subheader "✅ Existing Skills";
       match existing_skills a with
       | [] => WriteText "No matching skills found."
       | l =>
           Markdown
             (String.concat " " (map (fun skill => "`" ++ skill ++ "`")%string l))
       end;
       Subheader "⚠️ Missing / Gap Skills"]
   ++ match missing_skills a with
      | [] => [SuccessBox "No major skill gaps detected!"]
      | l =>
          [Markdown
             (String.concat " "
                (map (fun skill => "**" ++ skill ++ ",**")%string l));
           WarningBox
             "Adding these skills to your resume contextually will increase your skill matching score."]
      end)%list.

(** A character with which no token of JSON starts: no white space, no
    bracket, brace, colon or comma, no quotation mark, no digit or minus
    sign, and none of the first letters of [null], [true], [false], [NaN]
    and [Infinity]. *)
Definition starts_no_token (c : ascii) : bool :=
  negb (json.is_whitespace c || json.is_digit c
        || existsb (Ascii.eqb c) (list_ascii_of_string (py "{}[]:,`-ntfNI"))).

(** What stands between the two texts in the user prompt (lines 60-63). *)
Definition resume_heading : string :=
  nl ++ nl ++ "    **Resume:**" ++ nl ++ "    ".

(** Scenario A as a model often gives it, in a Markdown fence. *)
Definition response_fenced : string :=
  "```json" ++ nl ++ response_A ++ nl ++ "```".

(** Valid JSON that is no object. *)
Definition response_array : string := py "[`Python`, `Docker`]".

(** A resume that the browser sends without a known type. *)
Definition sample_unknown : UploadedFile :=
  {| file_name := "cv.docx"; file_type := "application/octet-stream";
     file_bytes := "PK" |}.

(** Three pages, the second of which [pypdf] cannot read. *)
Definition broken_pages : list PageObject :=
  [{| extract_text := Returned "Jane Doe" |};
   {| extract_text := Raised (OtherException "PdfReadError" "bad stream") |};
   {| extract_text := Returned "Python, Docker" |}].

(** Two scanned pages. *)
Definition scanned_pages : list PageObject :=
  [{| extract_text := Returned "" |}; {| extract_text := Returned "" |}].

(** A world that reads the sample documents and whose model server answers
    [reply]. *)
Definition full_world (reply : outcome (option string)) : world :=
  {| ollama_chat := fun _ _ _ => reply;
     pdf_pages := fun _ => Returned sample_pages;
     docx_paragraphs := fun _ => Returned sample_paragraphs;
     str_as_int := decimal_str_as_int;
     float_as_int := small_float_as_int |}.

(** * Properties *)

(** ** The validation of pydantic, field by field *)

Lemma validate_int_spec (w : world) (name : string) (v : pyobj) :
  match validate_int w name v with
  | inr _ => int_like w v = true
  | inl es => int_like w v = false /\ es <> []
  end.
Proof.
  destruct v as [ | b | z | f | s | l | d ]; unfold wrong; simpl;
    try (split; [reflexivity | discriminate]); try reflexivity.
  - destruct (float_as_int w f); [reflexivity | split; [reflexivity | discriminate]].
  - destruct (str_as_int w s); [reflexivity | split; [reflexivity | discriminate]].
Qed.

Lemma validate_str_spec (name : string) (v : pyobj) :
  match validate_str name v with
  | inr s => v = PyStr s
  | inl es => is_str v = false /\ es <> []
  end.
Proof.
  destruct v; unfold wrong; simpl;
    try (split; [reflexivity | discriminate]); reflexivity.
Qed.

Lemma validate_items_spec (name : string) (l : list pyobj) :
  forall i,
    match validate_items name i l with
    | inr ss => l = map PyStr ss
    | inl es => forallb is_str l = false /\ es <> []
    end.
Proof.
  induction l as [ | v l IH ]; intros i; simpl.
  - reflexivity.
  - specialize (IH (S i)).
    destruct (validate_items name (S i) l) as [es | ss];
      destruct v; unfold wrong; simpl;
      try (split; [reflexivity | discriminate]).
    + exact IH.
    + rewrite IH. reflexivity.
Qed.

Lemma validate_list_str_spec (name : string) (v : pyobj) :
  match validate_list_str name v with
  | inr ss => v = str_list ss
  | inl es => is_str_list v = false /\ es <> []
  end.
Proof.
  destruct v as [ | b | z | f | s | l | d ]; unfold wrong; simpl;
    try (split; [reflexivity | discriminate]).
  pose proof (validate_items_spec name l 0%nat) as H.
  destruct (validate_items name 0 l).
  - exact H.
  - unfold str_list. rewrite H. reflexivity.
Qed.

Lemma validate_items_strings (name : string) (ss : list string) :
  forall i, validate_items name i (map PyStr ss) = inr ss.
Proof.
  induction ss as [ | s ss IH ]; intros i; simpl.
  - reflexivity.
  - rewrite IH. reflexivity.
Qed.

Lemma forallb_is_str_strings (ss : list string) :
  forallb is_str (map PyStr ss) = true.
Proof.
  induction ss as [ | s ss IH ]; simpl; [reflexivity | exact IH].
Qed.

(** A required field fails with at least one error, and exactly when the
    field is not as the class requires. *)
Lemma required_spec {A} (d : dict) (name : string)
    (validate : string -> pyobj -> validation A) (check : pyobj -> bool) :
  (forall v, match validate name v with
             | inr _ => check v = true
             | inl es => check v = false /\ es <> []
             end) ->
  match required d name validate with
  | inr _ => field_ok d name check = true
  | inl es => field_ok d name check = false /\ es <> []
  end.
Proof.
  intros Hv. unfold required, field_ok.
  destruct (dict_get d name) as [v | ].
  - apply Hv.
  - unfold wrong. split; [reflexivity | discriminate].
Qed.

Lemma required_int_spec (w : world) (d : dict) :
  match required d "matching_score" (validate_int w) with
  | inr _ => field_ok d "matching_score" (int_like w) = true
  | inl es => field_ok d "matching_score" (int_like w) = false /\ es <> []
  end.
Proof. apply required_spec. intros v. apply validate_int_spec. Qed.

Lemma required_list_spec (d : dict) (name : string) :
  match required d name validate_list_str with
  | inr _ => field_ok d name is_str_list = true
  | inl es => field_ok d name is_str_list = false /\ es <> []
  end.
Proof.
  apply required_spec. intros v.
  pose proof (validate_list_str_spec name v) as H.
  destruct (validate_list_str name v).
  - exact H.
  - rewrite H. simpl. apply forallb_is_str_strings.
Qed.

Lemma required_str_spec (d : dict) :
  match required d "suitability_status" validate_str with
  | inr _ => field_ok d "suitability_status" is_str = true
  | inl es => field_ok d "suitability_status" is_str = false /\ es <> []
  end.
Proof.
  apply required_spec. intros v.
  pose proof (validate_str_spec "suitability_status" v) as H.
  destruct (validate_str "suitability_status" v).
  - exact H.
  - rewrite H. reflexivity.
Qed.

Lemma app_not_nil_l {A} (l l' : list A) : l <> [] -> (l ++ l')%list <> [].
Proof. destruct l; [congruence | discriminate]. Qed.

Lemma app_not_nil_r {A} (l l' : list A) : l' <> [] -> (l ++ l')%list <> [].
Proof. destruct l; [trivial | discriminate]. Qed.

(** The model validator fails exactly on the objects [schema_violation]
    describes, and then reports at least one error. *)
Lemma validate_model_spec (w : world) (d : dict) :
  match validate_model w d with
  | inr _ => schema_violation w d = false
  | inl es => schema_violation w d = true /\ es <> []
  end.
Proof.
  unfold validate_model, schema_violation.
  pose proof (required_int_spec w d) as H1.
  pose proof (required_list_spec d "existing_skills") as H2.
  pose proof (required_list_spec d "missing_skills") as H3.
  pose proof (required_list_spec d "recommended_improvements") as H4.
  pose proof (required_str_spec d) as H5.
  destruct (required d "matching_score" (validate_int w)) as [e1 | a1];
    destruct (required d "existing_skills" validate_list_str) as [e2 | a2];
    destruct (required d "missing_skills" validate_list_str) as [e3 | a3];
    destruct (required d "recommended_improvements" validate_list_str) as [e4 | a4];
    destruct (required d "suitability_status" validate_str) as [e5 | a5];
    repeat match goal with
           | H : _ /\ _ |- _ => destruct H
           end;
    repeat match goal with
           | H : field_ok _ _ _ = _ |- _ => rewrite H
           end;
    simpl;
    try reflexivity;
    (split; [reflexivity | ]);
    repeat first [ apply app_not_nil_l; assumption | apply app_not_nil_r ];
    try assumption.
Qed.

(** A validated model holds what the object held under the five names. *)
Lemma validate_model_fields (w : world) (d : dict) (a : AnalysisResult) :
  validate_model w d = inr a ->
  required d "matching_score" (validate_int w) = inr (matching_score a)
  /\ dict_get d "existing_skills" = Some (str_list (existing_skills a))
  /\ dict_get d "missing_skills" = Some (str_list (missing_skills a))
  /\ dict_get d "recommended_improvements"
     = Some (str_list (recommended_improvements a))
  /\ dict_get d "suitability_status" = Some (PyStr (suitability_status a)).
Proof.
  unfold validate_model, required.
  destruct (dict_get d "matching_score") as [v1 | ]; [ | discriminate].
  destruct (validate_int w "matching_score" v1) as [e1 | z] eqn:E1.
  { destruct (dict_get d "existing_skills"); simpl; discriminate. }
  destruct (dict_get d "existing_skills") as [v2 | ]; [ | discriminate].
  pose proof (validate_list_str_spec "existing_skills" v2) as H2.
  destruct (validate_list_str "existing_skills" v2) as [e2 | l2]; [discriminate | ].
  destruct (dict_get d "missing_skills") as [v3 | ]; [ | discriminate].
  pose proof (validate_list_str_spec "missing_skills" v3) as H3.
  destruct (validate_list_str "missing_skills" v3) as [e3 | l3]; [discriminate | ].
  destruct (dict_get d "recommended_improvements") as [v4 | ]; [ | discriminate].
  pose proof (validate_list_str_spec "recommended_improvements" v4) as H4.
  destruct (validate_list_str "recommended_improvements" v4) as [e4 | l4];
    [discriminate | ].
  destruct (dict_get d "suitability_status") as [v5 | ]; [ | discriminate].
  pose proof (validate_str_spec "suitability_status" v5) as H5.
  destruct (validate_str "suitability_status" v5) as [e5 | s5]; [discriminate | ].
  intros H. injection H as <-. simpl. subst. repeat split; reflexivity.
Qed.


(** What was dumped validates to itself. *)
Lemma validate_model_dump (w : world) (a : AnalysisResult) :
  validate_model w (model_dump a) = inr a.
Proof.
  destruct a as [z l1 l2 l3 s].
  unfold validate_model, required, model_dump, str_list. simpl.
  unfold validate_list_str. rewrite !validate_items_strings. reflexivity.
Qed.

(** ** Dictionaries *)





(** ** Running the analyzer, stage by stage *)

Lemma handler_reports (e : exn) (w : world) :
  is_Exception e = true ->
  exists m, handler e w = (Returned None, [StError m]).
Proof.
  destruct e; simpl; intros He; try discriminate; eexists; reflexivity.
Qed.

Lemma handler_result (e : exn) (w : world) :
  fst (handler e w) = Returned None \/ fst (handler e w) = Raised e.
Proof. destruct e; simpl; auto. Qed.

(** Runs the [try] block up to the answer [H] of the model server. *)
Ltac run_analyzer H :=
  unfold get_ollama_analysis, try_except, chat, bind, log, ask;
  rewrite H; simpl; unfold raise, ret.

Section Analyzer.

Variable w : world.
Variables resume_text jd_text : string.

Lemma analysis_when_chat_raises (e : exn) :
  model_reply w resume_text jd_text = Raised e ->
  get_ollama_analysis resume_text jd_text w =
  (fst (handler e w), chat_request resume_text jd_text :: snd (handler e w)).
Proof.
  intros H. run_analyzer H. destruct (handler e w). reflexivity.
Qed.

Lemma analysis_when_content_is_none :
  model_reply w resume_text jd_text = Returned None ->
  exists m, get_ollama_analysis resume_text jd_text w =
            (Returned None, [chat_request resume_text jd_text; StError m]).
Proof.
  intros H. run_analyzer H. eexists. reflexivity.
Qed.

Section Reply.

Variable content : string.
Hypothesis Hreply : model_reply w resume_text jd_text = Returned (Some content).

Lemma analysis_when_not_json :
  json.loads content = None ->
  get_ollama_analysis resume_text jd_text w =
  (Returned None, [chat_request resume_text jd_text; StError parse_failure]).
Proof.
  intros Hl. run_analyzer Hreply. rewrite Hl. reflexivity.
Qed.

Lemma analysis_when_not_a_mapping (v : pyobj) :
  json.loads content = Some v ->
  (forall d, v <> PyDict d) ->
  exists m, get_ollama_analysis resume_text jd_text w =
            (Returned None, [chat_request resume_text jd_text; StError m]).
Proof.
  intros Hl Hv. run_analyzer Hreply. rewrite Hl.
  destruct v; simpl; try (eexists; reflexivity).
  exfalso. apply (Hv d). reflexivity.
Qed.

Lemma analysis_when_invalid (d : dict) (es : list line_error) :
  json.loads content = Some (PyDict d) ->
  validate_model w d = inl es ->
  get_ollama_analysis resume_text jd_text w =
  (Returned None,
   [chat_request resume_text jd_text;
    StError (FText "An unexpected error occurred: " (ValidationError es))]).
Proof.
  intros Hl Hv. run_analyzer Hreply. rewrite Hl. simpl. rewrite Hv. reflexivity.
Qed.

Lemma analysis_when_valid (d : dict) (a : AnalysisResult) :
  json.loads content = Some (PyDict d) ->
  validate_model w d = inr a ->
  get_ollama_analysis resume_text jd_text w =
  (Returned (Some (model_dump a)), [chat_request resume_text jd_text]).
Proof.
  intros Hl Hv. run_analyzer Hreply. rewrite Hl. simpl. rewrite Hv. reflexivity.
Qed.

(** Without a violation the analysis succeeds. *)
Lemma no_violation_succeeds (d : dict) :
  json.loads content = Some (PyDict d) ->
  schema_violation w d = false ->
  exists a, validate_model w d = inr a
            /\ get_ollama_analysis resume_text jd_text w
               = (Returned (Some (model_dump a)),
                  [chat_request resume_text jd_text]).
Proof.
  intros Hl Hs.
  pose proof (validate_model_spec w d) as Hspec.
  destruct (validate_model w d) as [es | a] eqn:E.
  - destruct Hspec as [Hspec _]. congruence.
  - exists a. split; [reflexivity | apply (analysis_when_valid d a Hl E)].
Qed.

End Reply.

(** Either the three stages succeed, or the analysis fails in one of the
    listed ways. *)
Lemma success_or_failure :
  (exists content d a,
      model_reply w resume_text jd_text = Returned (Some content)
      /\ json.loads content = Some (PyDict d)
      /\ validate_model w d = inr a)
  \/ failure w resume_text jd_text.
Proof.
  destruct (model_reply w resume_text jd_text) as [[content | ] | e] eqn:Hr.
  - destruct (json.loads content) as [v | ] eqn:Hl.
    + destruct v as [ | b | z | f | s | l | d ];
        try (right; eapply NotAnObject; [exact Hr | exact Hl | discriminate]).
      pose proof (validate_model_spec w d) as Hspec.
      destruct (validate_model w d) as [es | a] eqn:E.
      * right. eapply SchemaViolation; [exact Hr | exact Hl | tauto].
      * left. exists content, d, a. auto.
    + right. eapply MalformedOutput; eauto.
  - right. apply NoContent. exact Hr.
  - right. eapply InferenceError. exact Hr.
Qed.

(** A failure never comes with a result. *)
Lemma failure_gives_no_result :
  failure w resume_text jd_text ->
  forall res t,
    get_ollama_analysis resume_text jd_text w <> (Returned (Some res), t).
Proof.
  intros [e He | Hn | content Hr Hl | content v Hr Hl Hv | content d Hr Hl Hs] res t.
  - rewrite (analysis_when_chat_raises e He).
    destruct (handler_result e w) as [H | H]; intros Heq;
      injection Heq as Heq _; congruence.
  - destruct (analysis_when_content_is_none Hn) as [m Hm]. congruence.
  - rewrite (analysis_when_not_json content Hr Hl). discriminate.
  - destruct (analysis_when_not_a_mapping content Hr v Hl Hv) as [m Hm].
    congruence.
  - pose proof (validate_model_spec w d) as Hspec.
    destruct (validate_model w d) as [es | a] eqn:E; [ | congruence].
    rewrite (analysis_when_invalid content Hr d es Hl E). discriminate.
Qed.

(** A result has the five field names for its keys. *)
Lemma result_has_the_five_keys (res : dict) (t : list event) :
  get_ollama_analysis resume_text jd_text w = (Returned (Some res), t) ->
  keys res = field_names.
Proof.
  intros Hrun.
  destruct success_or_failure as [(content & d & a & Hr & Hl & Hv) | Hf].
  - rewrite (analysis_when_valid content Hr d a Hl Hv) in Hrun.
    injection Hrun as <- _. reflexivity.
  - exfalso. exact (failure_gives_no_result Hf res t Hrun).
Qed.

(** Every run of the analyzer starts with its call to the model server, so a
    log without such a call shows that the analyzer did not run. *)
Lemma analysis_calls_the_model :
  exists t,
    snd (get_ollama_analysis resume_text jd_text w)
    = chat_request resume_text jd_text :: t.
Proof.
  destruct success_or_failure
    as [(content & d & a & Hr & Hl & Hv)
       | [e He | Hn | content Hr Hl | content v Hr Hl Hv | content d Hr Hl Hs]].
  - rewrite (analysis_when_valid content Hr d a Hl Hv). eexists. reflexivity.
  - rewrite (analysis_when_chat_raises e He). eexists. reflexivity.
  - destruct (analysis_when_content_is_none Hn) as [m Hm]. rewrite Hm.
    eexists. reflexivity.
  - rewrite (analysis_when_not_json content Hr Hl). eexists. reflexivity.
  - destruct (analysis_when_not_a_mapping content Hr v Hl Hv) as [m Hm].
    rewrite Hm. eexists. reflexivity.
  - pose proof (validate_model_spec w d) as Hspec.
    destruct (validate_model w d) as [es | a] eqn:E; [ | congruence].
    rewrite (analysis_when_invalid content Hr d es Hl E). eexists. reflexivity.
Qed.

Section ErrorsUnderException.

(** Every error of the client library derives from [Exception]. *)
Hypothesis Hexc :
  forall e, model_reply w resume_text jd_text = Raised e -> is_Exception e = true.

Lemma failure_is_reported :
  failure w resume_text jd_text ->
  exists m, get_ollama_analysis resume_text jd_text w
            = (Returned None, [chat_request resume_text jd_text; StError m]).
Proof.
  intros [e He | Hn | content Hr Hl | content v Hr Hl Hv | content d Hr Hl Hs].
  - rewrite (analysis_when_chat_raises e He).
    destruct (handler_reports e w (Hexc e He)) as [m Hm].
    exists m. rewrite Hm. reflexivity.
  - apply analysis_when_content_is_none. exact Hn.
  - exists parse_failure. apply (analysis_when_not_json content Hr Hl).
  - apply (analysis_when_not_a_mapping content Hr v Hl Hv).
  - pose proof (validate_model_spec w d) as Hspec.
    destruct (validate_model w d) as [es | a] eqn:E.
    + eexists. apply (analysis_when_invalid content Hr d es Hl E).
    + congruence.
Qed.

End ErrorsUnderException.

End Analyzer.

(** ** The analyzer *)

(** C3. When the model server fails only with errors under [Exception] (as
    every error of the client library is), each failure of the analysis, an
    inference error, a response that is no JSON, a schema violation, ends in
    the result [None] after one call and one [st.error] message; a result
    other than [None] is the dump of a model validated in full; and no
    exception leaves [get_ollama_analysis]. *)
Theorem analysis_failures_are_caught (w : world) (r j : string) :
  (forall e, model_reply w r j = Raised e -> is_Exception e = true) ->
  (failure w r j ->
   exists m, get_ollama_analysis r j w
             = (Returned None, [chat_request r j; StError m]))
  /\ (forall res t,
        get_ollama_analysis r j w = (Returned (Some res), t) ->
        t = [chat_request r j]
        /\ exists content d a,
            model_reply w r j = Returned (Some content)
            /\ json.loads content = Some (PyDict d)
            /\ validate_model w d = inr a
            /\ res = model_dump a)
  /\ (forall e t, get_ollama_analysis r j w <> (Raised e, t)).
Proof.
  intros Hexc. split; [ | split].
  - apply failure_is_reported. exact Hexc.
  - intros res t Hrun.
    destruct (success_or_failure w r j) as [(content & d & a & Hr & Hl & Hv) | Hf].
    + rewrite (analysis_when_valid w r j content Hr d a Hl Hv) in Hrun.
      injection Hrun as <- <-. split; [reflexivity | ].
      exists content, d, a. auto.
    + destruct (failure_is_reported w r j Hexc Hf) as [m Hm]. congruence.
  - intros e t Hrun.
    destruct (success_or_failure w r j) as [(content & d & a & Hr & Hl & Hv) | Hf].
    + rewrite (analysis_when_valid w r j content Hr d a Hl Hv) in Hrun.
      discriminate.
    + destruct (failure_is_reported w r j Hexc Hf) as [m Hm]. congruence.
Qed.

(** C3, at a model server that cannot find the model. *)
Lemma analysis_failures_are_caught_witness :
  get_ollama_analysis resume_A jd_A
    (mock_world (Raised (ResponseError "model not found")))
  = (Returned None,
     [chat_request resume_A jd_A;
      StError (FText "Ollama API Error: " (ResponseError "model not found"))]).
Proof.
  pose (w := mock_world (Raised (ResponseError "model not found"))).
  assert (Hexc : forall e, model_reply w resume_A jd_A = Raised e ->
                           is_Exception e = true).
  { intros e H. injection H as <-. reflexivity. }
  destruct (analysis_failures_are_caught w resume_A jd_A Hexc) as [H _].
  destruct (H (InferenceError w resume_A jd_A _ eq_refl)) as [m Hm].
  fold w. rewrite Hm. vm_compute in Hm. injection Hm as <-. reflexivity.
Defined.

(** The premise on the errors of the model server is needed: an interrupt is
    no [Exception], and it leaves the function. *)
Lemma interrupt_is_not_caught :
  fst (get_ollama_analysis resume_A jd_A
         (mock_world (Raised (NotAnException "KeyboardInterrupt"))))
  = Raised (NotAnException "KeyboardInterrupt").
Proof. reflexivity. Qed.

(** The score is validated as an [int] and nothing more: whatever integer the
    object carries is returned. *)
Lemma score_is_not_checked (w : world) (r j content : string) (d : dict) (z : Z) :
  model_reply w r j = Returned (Some content) ->
  json.loads content = Some (PyDict d) ->
  schema_violation w d = false ->
  dict_get d "matching_score" = Some (PyInt z) ->
  exists a, matching_score a = z
            /\ get_ollama_analysis r j w
               = (Returned (Some (model_dump a)), [chat_request r j]).
Proof.
  intros Hr Hl Hs Hz.
  destruct (no_violation_succeeds w r j content Hr d Hl Hs) as (a & E & Hrun).
  exists a. split; [ | exact Hrun].
  destruct (validate_model_fields w d a E) as [H1 _].
  unfold required in H1. rewrite Hz in H1. simpl in H1. congruence.
Qed.

(** The status is validated as a [str] and nothing more. *)
Lemma status_is_not_checked (w : world) (r j content : string) (d : dict)
    (s : string) :
  model_reply w r j = Returned (Some content) ->
  json.loads content = Some (PyDict d) ->
  schema_violation w d = false ->
  dict_get d "suitability_status" = Some (PyStr s) ->
  exists a, suitability_status a = s
            /\ get_ollama_analysis r j w
               = (Returned (Some (model_dump a)), [chat_request r j]).
Proof.
  intros Hr Hl Hs Hz.
  destruct (no_violation_succeeds w r j content Hr d Hl Hs) as (a & E & Hrun).
  exists a. split; [ | exact Hrun].
  destruct (validate_model_fields w d a E) as (_ & _ & _ & _ & H5). congruence.
Qed.

(** C1 (the code departs from the claim). Scenario C on the code: the mocked
    response is valid JSON with [matching_score] 150, outside 0..100, and
    [get_ollama_analysis] returns it as a result, with no error reported,
    where the claim requires a failure. *)
Theorem out_of_range_score_is_returned :
  score_in_range 150 = false
  /\ get_ollama_analysis resume_A jd_A (mock_world (Returned (Some response_C)))
     = (Returned
          (Some
             [("matching_score", PyInt 150);
              ("existing_skills", PyList [PyStr "Python"]);
              ("missing_skills", PyList [PyStr "Kubernetes"]);
              ("recommended_improvements",
               PyList [PyStr "Add Kubernetes experience"]);
              ("suitability_status", PyStr "Potential Match")]),
        [chat_request resume_A jd_A]).
Proof. split; vm_compute; reflexivity. Qed.

(** C2 (the code departs from the claim). A response that is valid JSON with
    [suitability_status] "Maybe", none of the four values, is returned as a
    result, with no error reported, where the claim requires a failure. *)
Theorem unlisted_status_is_returned :
  is_suitability_value "Maybe" = false
  /\ get_ollama_analysis resume_A jd_A
       (mock_world (Returned (Some response_unlisted_status)))
     = (Returned
          (Some
             [("matching_score", PyInt 60);
              ("existing_skills", PyList [PyStr "Python"]);
              ("missing_skills", PyList [PyStr "Kubernetes"]);
              ("recommended_improvements",
               PyList [PyStr "Add Kubernetes experience"]);
              ("suitability_status", PyStr "Maybe")]),
        [chat_request resume_A jd_A]).
Proof. split; vm_compute; reflexivity. Qed.



(** C5, refuted as stated. The score of this response is the JSON boolean
    [true], not an integer, so a field has the wrong type; pydantic's lax
    mode takes a [bool] for an [int] and the analysis succeeds with score 1. *)
Lemma bool_score_is_accepted :
  (exists d,
      json.loads response_bool_score = Some (PyDict d)
      /\ dict_get d "matching_score" = Some (PyBool true)
      /\ has_declared_types d = false)
  /\ get_ollama_analysis resume_A jd_A
       (mock_world (Returned (Some response_bool_score)))
     = (Returned
          (Some
             [("matching_score", PyInt 1);
              ("existing_skills", PyList [PyStr "Python"]);
              ("missing_skills", PyList [PyStr "Kubernetes"]);
              ("recommended_improvements",
               PyList [PyStr "Add Kubernetes experience"]);
              ("suitability_status", PyStr "Potential Match")]),
        [chat_request resume_A jd_A]).
Proof.
  split.
  - eexists. split; [vm_compute; reflexivity | split; reflexivity].
  - vm_compute. reflexivity.
Qed.

(** The same with the score as the JSON string of 60, where pydantic converts
    a run of digits (as [mock_world] does). *)
Lemma numeric_string_score_is_accepted :
  fst (get_ollama_analysis resume_A jd_A
         (mock_world (Returned (Some response_str_score))))
  = Returned (Some (model_dump result_A)).
Proof. vm_compute. reflexivity. Qed.

(** C5, amended. A parsed JSON object in which a required field is missing, a
    list field is not an array of strings, the status is not a string, or
    the score is neither an integer nor a value pydantic's lax mode converts
    to one (a boolean, a float or a string it accepts) makes the analysis
    fail: the result is [None], the message carries the validation errors,
    of which there is at least one, and the log holds one call (no retry). *)
Theorem schema_violation_is_reported (w : world) (r j content : string) (d : dict) :
  model_reply w r j = Returned (Some content) ->
  json.loads content = Some (PyDict d) ->
  schema_violation w d = true ->
  exists es,
    es <> []
    /\ get_ollama_analysis r j w
       = (Returned None,
          [chat_request r j;
           StError (FText "An unexpected error occurred: " (ValidationError es))])
    /\ chat_count (snd (get_ollama_analysis r j w)) = 1%nat.
Proof.
  intros Hr Hl Hs.
  pose proof (validate_model_spec w d) as Hspec.
  destruct (validate_model w d) as [es | a] eqn:E; [ | congruence].
  exists es. destruct Hspec as [_ Hne].
  rewrite (analysis_when_invalid w r j content Hr d es Hl E).
  split; [exact Hne | split; reflexivity].
Qed.

(** C5, at a response that lacks [recommended_improvements] and has a number
    among the missing skills. *)
Lemma schema_violation_is_reported_witness :
  exists es,
    es <> []
    /\ get_ollama_analysis resume_A jd_A
         (mock_world (Returned (Some response_missing_field)))
       = (Returned None,
          [chat_request resume_A jd_A;
           StError (FText "An unexpected error occurred: " (ValidationError es))])
    /\ chat_count
         (snd (get_ollama_analysis resume_A jd_A
                 (mock_world (Returned (Some response_missing_field))))) = 1%nat.
Proof.
  apply (schema_violation_is_reported
           (mock_world (Returned (Some response_missing_field)))
           resume_A jd_A response_missing_field
           [("matching_score", PyInt 60);
            ("existing_skills", PyList [PyStr "Python"]);
            ("missing_skills", PyList [PyStr "Kubernetes"; PyInt 7]);
            ("suitability_status", PyStr "Potential Match")]);
    vm_compute; reflexivity.
Defined.





(** ** The guard of [main] *)

Lemma for_each_logs_nothing {A S} (body : S -> A -> M S) (w : world) :
  (forall s x, snd (body s x w) = []) ->
  forall l s, snd (for_each l s body w) = [].
Proof.
  intros Hb. induction l as [ | x l IH ]; intros s; simpl.
  - reflexivity.
  - unfold bind. specialize (Hb s x).
    destruct (body s x w) as [[s' | e] t]; simpl in Hb; subst t.
    + specialize (IH s'). destruct (for_each l s' body w) as [o t']. simpl in *.
      exact IH.
    + reflexivity.
Qed.

Lemma extract_text_from_pdf_logs_nothing (f : UploadedFile) (w : world) :
  snd (extract_text_from_pdf f w) = [].
Proof.
  unfold extract_text_from_pdf, bind, ask.
  destruct (pdf_pages w (file_bytes f)) as [pages | e]; [ | reflexivity].
  pose proof (for_each_logs_nothing
                (fun text page =>
                   t <- (fun _ : world => (extract_text page, [])) ;;
                   ret (text ++ t)) w) as H.
  match goal with
  | |- snd (let (r, t') := ?c in _) = _ =>
      assert (Hc : snd c = []); [ | destruct c; simpl in *; subst; reflexivity]
  end.
  apply H. intros s x. unfold bind, ret.
  destruct (extract_text x); reflexivity.
Qed.

Lemma extract_text_from_docx_logs_nothing (f : UploadedFile) (w : world) :
  snd (extract_text_from_docx f w) = [].
Proof.
  unfold extract_text_from_docx, bind, ask.
  destruct (docx_paragraphs w (file_bytes f)) as [ps | e]; [ | reflexivity].
  match goal with
  | |- snd (let (r, t') := ?c in _) = _ =>
      assert (Hc : snd c = []); [ | destruct c; simpl in *; subst; reflexivity]
  end.
  apply for_each_logs_nothing. intros s x. reflexivity.
Qed.

(** Reading the upload never reaches the model server. *)
Lemma upload_column_no_chat (uploaded_file : option UploadedFile) (w : world) :
  no_chat (snd (upload_column uploaded_file w)) = true.
Proof.
  destruct uploaded_file as [f | ]; [ | reflexivity].
  unfold upload_column, try_except.
  assert (H : forall c : M string,
             snd (c w) = [] ->
             no_chat
               (snd (match c w with
                     | (Returned a, t) => (Returned a, t)
                     | (Raised e, t) =>
                         let (r, t') :=
                           (if is_Exception e
                            then st_error (FText "Error extracting text: " e) ;;;
                                 ret ""
                            else raise e) w in
                         (r, (t ++ t')%list)
                     end)) = true).
  { intros c Hc. destruct (c w) as [[a | e] t]; simpl in Hc; subst t.
    - reflexivity.
    - destruct (is_Exception e); reflexivity. }
  apply H.
  destruct (String.eqb (file_type f) pdf_type).
  - apply extract_text_from_pdf_logs_nothing.
  - destruct (String.eqb (file_type f) docx_type).
    + apply extract_text_from_docx_logs_nothing.
    + reflexivity.
Qed.

Lemma no_chat_app (t t' : list event) :
  no_chat (t ++ t') = no_chat t && no_chat t'.
Proof. unfold no_chat. apply forallb_app. Qed.

(** The click with an empty text: the warning, and nothing else. *)
Lemma on_click_guard (jd_input resume_text : string) (w : world) :
  jd_input = "" \/ resume_text = "" ->
  on_click jd_input resume_text w = (Returned tt, [StWarning missing_input]).
Proof.
  intros [-> | ->]; unfold on_click; simpl.
  - reflexivity.
  - rewrite orb_true_r. reflexivity.
Qed.

(** Scenario D: bytes declared as PDF that [pypdf] cannot open. The error is
    reported, no text comes back, and a click ends in the warning. *)
Lemma invalid_pdf_is_reported (w : world) (f : UploadedFile) (e : exn)
    (jd_input : string) :
  file_type f = pdf_type ->
  pdf_pages w (file_bytes f) = Raised e ->
  is_Exception e = true ->
  upload_column (Some f) w
  = (Returned "", [StError (FText "Error extracting text: " e)])
  /\ main jd_input (Some f) true w
     = (Returned tt,
        [StError (FText "Error extracting text: " e); StWarning missing_input]).
Proof.
  intros Hty Hpdf He.
  assert (Hup : upload_column (Some f) w
                = (Returned "", [StError (FText "Error extracting text: " e)])).
  { unfold upload_column, try_except. rewrite Hty. simpl.
    unfold extract_text_from_pdf, bind at 1, ask at 1. rewrite Hpdf.
    rewrite He. reflexivity. }
  split; [exact Hup | ].
  unfold main, bind. rewrite Hup.
  rewrite (on_click_guard jd_input "" w (or_intror eq_refl)). reflexivity.
Qed.

(** C7. Whenever the job description is empty, or the upload yields no text
    (no file, a file of another type, a failed extraction, a document
    without text), no run of [main] calls the model server; when the button
    was pressed and the upload was read, the run logs what reading the upload
    logged and then the warning of line 131. *)
Theorem empty_input_skips_analysis
    (w : world) (jd_input : string) (uploaded_file : option UploadedFile)
    (analyze_btn : bool) :
  jd_input = ""
  \/ (forall s, fst (upload_column uploaded_file w) = Returned s -> s = "") ->
  no_chat (snd (main jd_input uploaded_file analyze_btn w)) = true
  /\ (analyze_btn = true ->
      forall s, fst (upload_column uploaded_file w) = Returned s ->
      main jd_input uploaded_file analyze_btn w
      = (Returned tt,
         (snd (upload_column uploaded_file w) ++ [StWarning missing_input])%list)).
Proof.
  intros Hempty.
  pose proof (upload_column_no_chat uploaded_file w) as Hup.
  unfold main, bind.
  destruct (upload_column uploaded_file w) as [[s | e] t0] eqn:E; simpl in *.
  - assert (Hs : jd_input = "" \/ s = "").
    { destruct Hempty as [H | H]; [left; exact H | right; apply H; reflexivity]. }
    destruct analyze_btn.
    + rewrite (on_click_guard jd_input s w Hs). simpl. split.
      * rewrite no_chat_app, Hup. reflexivity.
      * intros _ s' Hs'. reflexivity.
    + unfold ret. simpl. split.
      * rewrite no_chat_app, Hup. reflexivity.
      * discriminate.
  - split; [exact Hup | ]. intros _ s Hs. discriminate.
Qed.

(** C7, scenario B: an empty job description with a readable resume, and a
    job description with no file uploaded. *)
Lemma empty_input_skips_analysis_witness :
  main "" (Some sample_docx) true (document_world sample_pages sample_paragraphs)
  = (Returned tt, [StWarning missing_input])
  /\ main jd_A None true (mock_world (Returned (Some response_A)))
     = (Returned tt, [StWarning missing_input]).
Proof.
  split.
  - apply (empty_input_skips_analysis
             (document_world sample_pages sample_paragraphs) ""
             (Some sample_docx) true (or_introl eq_refl))
      with (s := concat_all (map (fun p => text p ++ nl) sample_paragraphs));
      reflexivity.
  - refine (proj2 (empty_input_skips_analysis
                     (mock_world (Returned (Some response_A))) jd_A None true
                     (or_intror _)) eq_refl "" eq_refl).
    intros s H. injection H as <-. reflexivity.
Defined.

(** With both texts at hand the click does call the model server, once. *)
Lemma nonempty_input_calls_analysis :
  chat_count
    (snd (main jd_A (Some sample_docx) true
            {| ollama_chat := fun _ _ _ => Returned (Some response_A);
               pdf_pages := no_reader;
               docx_paragraphs := fun _ => Returned sample_paragraphs;
               str_as_int := decimal_str_as_int;
               float_as_int := small_float_as_int |}))
  = 1%nat.
Proof. vm_compute. reflexivity. Qed.

(** ** The text extractors *)

Lemma append_assoc (a b c : string) : (a ++ b) ++ c = a ++ (b ++ c).
Proof. induction a as [ | x a IH ]; simpl; [reflexivity | rewrite IH; reflexivity]. Qed.

Lemma append_nil_r (a : string) : a ++ "" = a.
Proof. induction a as [ | x a IH ]; simpl; [reflexivity | rewrite IH; reflexivity]. Qed.

Lemma count_nl_append (a b : string) :
  count_nl (a ++ b) = (count_nl a + count_nl b)%nat.
Proof.
  induction a as [ | x a IH ]; simpl; [reflexivity | rewrite IH; lia].
Qed.

(** The loop of lines 32-33, started from any text. *)
Lemma docx_loop (ps : list Paragraph) (w : world) :
  forall acc,
    for_each ps acc (fun text_ para => ret (text_ ++ (text para ++ nl))) w
    = (Returned (acc ++ concat_all (map (fun p => text p ++ nl) ps)), []).
Proof.
  induction ps as [ | p ps IH ]; intros acc; simpl.
  - rewrite append_nil_r. reflexivity.
  - unfold bind, ret at 1. rewrite IH. rewrite !append_assoc. reflexivity.
Qed.

(** The loop of lines 25-26 over pages that all give their text. *)
Lemma pdf_loop (w : world) :
  forall (pages : list PageObject) (texts : list string) (acc : string),
    map extract_text pages = map Returned texts ->
    for_each pages acc
      (fun text page => t <- ask (fun _ => extract_text page) ;; ret (text ++ t)) w
    = (Returned (acc ++ concat_all texts), []).
Proof.
  set (body := fun text page =>
                 t <- ask (fun _ => extract_text page) ;; ret (text ++ t)).
  induction pages as [ | p pages IH ]; intros [ | t texts ] acc H;
    simpl in H; try discriminate.
  - simpl. rewrite append_nil_r. reflexivity.
  - injection H as Hp Hrest.
    assert (Hb : body acc p w = (Returned (acc ++ t), [])).
    { unfold body, bind, ask, ret. rewrite Hp. reflexivity. }
    simpl. unfold bind at 1. rewrite Hb.
    rewrite (IH texts (acc ++ t) Hrest). rewrite append_assoc. reflexivity.
Qed.

Lemma count_nl_paragraphs (ps : list Paragraph) :
  count_nl (concat_all (map (fun p => text p ++ nl) ps))
  = (List.length ps + list_sum (map (fun p => count_nl (text p)) ps))%nat.
Proof.
  induction ps as [ | p ps IH ]; simpl; [reflexivity | ].
  rewrite !count_nl_append, IH. simpl. lia.
Qed.

(** A text without line feed, its line feed, and more text: the first line
    is that text. *)
Lemma lines_first (t rest : string) :
  count_nl t = 0%nat -> lines (t ++ String "010" rest) = t :: lines rest.
Proof.
  induction t as [ | c t IH ]; simpl; intros H.
  - reflexivity.
  - destruct (Ascii.eqb c "010"); [discriminate | ].
    rewrite (IH H). reflexivity.
Qed.

Lemma lines_paragraphs (ps : list Paragraph) :
  (forall p, In p ps -> count_nl (text p) = 0%nat) ->
  lines (concat_all (map (fun p => text p ++ nl) ps)) = map text ps.
Proof.
  induction ps as [ | p ps IH ]; simpl; intros H; [reflexivity | ].
  rewrite append_assoc.
  change (nl ++ concat_all (map (fun p => text p ++ nl) ps))
    with (String "010" (concat_all (map (fun p => text p ++ nl) ps))).
  rewrite lines_first by (apply H; left; reflexivity).
  rewrite IH by (intros q Hq; apply H; right; exact Hq). reflexivity.
Qed.

(** C8. For a document that [docx] opens, [extract_text_from_docx] returns
    the texts of the paragraphs in document order, each followed by one line
    feed, and logs nothing: the text has one line feed per paragraph besides
    those inside the paragraphs, and when no paragraph holds a line feed its
    lines are the paragraphs. *)
Theorem docx_text_is_paragraphs_in_order
    (w : world) (file : UploadedFile) (ps : list Paragraph) :
  docx_paragraphs w (file_bytes file) = Returned ps ->
  let out := concat_all (map (fun p => text p ++ nl) ps) in
  extract_text_from_docx file w = (Returned out, [])
  /\ count_nl out
     = (List.length ps + list_sum (map (fun p => count_nl (text p)) ps))%nat
  /\ ((forall p, In p ps -> count_nl (text p) = 0%nat) -> lines out = map text ps).
Proof.
  intros Hdoc out. split; [ | split].
  - unfold extract_text_from_docx, bind, ask. rewrite Hdoc.
    rewrite docx_loop. reflexivity.
  - apply count_nl_paragraphs.
  - apply lines_paragraphs.
Qed.

(** C8, at a document of three paragraphs, the second empty. *)
Lemma docx_text_is_paragraphs_in_order_witness :
  extract_text_from_docx sample_docx (document_world sample_pages sample_paragraphs)
  = (Returned ("Jane Doe" ++ nl ++ nl ++ "Python, Docker" ++ nl), [])
  /\ lines ("Jane Doe" ++ nl ++ nl ++ "Python, Docker" ++ nl)
     = ["Jane Doe"; ""; "Python, Docker"].
Proof.
  pose proof (docx_text_is_paragraphs_in_order
                (document_world sample_pages sample_paragraphs) sample_docx
                sample_paragraphs eq_refl) as H.
  cbv zeta in H. destruct H as (H1 & _ & H3). split.
  - exact H1.
  - apply H3. intros p Hp. simpl in Hp.
    destruct Hp as [<- | [<- | [<- | []]]]; reflexivity.
Defined.

Lemma concat_all_nonempty (texts : list string) :
  concat_all texts = concat_all (filter truthy texts).
Proof.
  induction texts as [ | t texts IH ]; simpl; [reflexivity | ].
  destruct t as [ | c t ]; simpl; rewrite IH; reflexivity.
Qed.

(** C9. For a PDF that [pypdf] opens and whose N pages all give their text,
    [extract_text_from_pdf] returns the texts of the pages, one after the
    other in page order, and logs nothing; a page whose text is empty adds
    nothing and raises no error; the output depends on the bytes alone, and
    extracting twice gives the same text twice. *)
Theorem pdf_text_is_pages_in_order
    (w : world) (file : UploadedFile) (pages : list PageObject)
    (texts : list string) :
  pdf_pages w (file_bytes file) = Returned pages ->
  map extract_text pages = map Returned texts ->
  extract_text_from_pdf file w = (Returned (concat_all texts), [])
  /\ List.length texts = List.length pages
  /\ concat_all texts = concat_all (filter truthy texts)
  /\ (forall file', file_bytes file' = file_bytes file ->
                    extract_text_from_pdf file' w = extract_text_from_pdf file w)
  /\ (a <- extract_text_from_pdf file ;;
      b <- extract_text_from_pdf file ;; ret (a, b)) w
     = (Returned (concat_all texts, concat_all texts), []).
Proof.
  intros Hpdf Htexts.
  assert (Hrun : extract_text_from_pdf file w = (Returned (concat_all texts), [])).
  { unfold extract_text_from_pdf, bind at 1, ask at 1. rewrite Hpdf.
    rewrite (pdf_loop w pages texts "" Htexts). reflexivity. }
  split; [exact Hrun | ]. split.
  { rewrite <- (length_map Returned texts), <- Htexts. apply length_map. }
  split; [apply concat_all_nonempty | ]. split.
  - intros file' Hbytes. unfold extract_text_from_pdf. rewrite Hbytes. reflexivity.
  - unfold bind at 1. rewrite Hrun. unfold bind at 1. rewrite Hrun. reflexivity.
Qed.

(** C9, at a PDF of three pages, the second a scanned image. *)
Lemma pdf_text_is_pages_in_order_witness :
  extract_text_from_pdf sample_pdf (document_world sample_pages sample_paragraphs)
  = (Returned "Jane DoePython, Docker", []).
Proof.
  exact (proj1 (pdf_text_is_pages_in_order
                  (document_world sample_pages sample_paragraphs) sample_pdf
                  sample_pages ["Jane Doe"; ""; "Python, Docker"]
                  eq_refl eq_refl)).
Defined.

(** * Further properties of [app.py] *)

(** ** Calls to the model server *)

Lemma handler_log (e : exn) (w : world) :
  snd (handler e w) = [] \/ exists m, snd (handler e w) = [StError m].
Proof. destruct e; simpl; eauto. Qed.

(** The log of the analyzer: its request, then at most one error message. *)
Lemma analysis_log (w : world) (r j : string) :
  exists rest,
    snd (get_ollama_analysis r j w) = chat_request r j :: rest
    /\ (rest = [] \/ exists m, rest = [StError m]).
Proof.
  destruct (success_or_failure w r j)
    as [(content & d & a & Hr & Hl & Hv)
       | [e He | Hn | content Hr Hl | content v Hr Hl Hv | content d Hr Hl Hs]].
  - rewrite (analysis_when_valid w r j content Hr d a Hl Hv).
    exists []. split; [reflexivity | left; reflexivity].
  - rewrite (analysis_when_chat_raises w r j e He). simpl.
    exists (snd (handler e w)). split; [reflexivity | apply handler_log].
  - destruct (analysis_when_content_is_none w r j Hn) as [m Hm]. rewrite Hm.
    exists [StError m]. split; [reflexivity | right; exists m; reflexivity].
  - rewrite (analysis_when_not_json w r j content Hr Hl).
    exists [StError parse_failure].
    split; [reflexivity | right; eexists; reflexivity].
  - destruct (analysis_when_not_a_mapping w r j content Hr v Hl Hv) as [m Hm].
    rewrite Hm.
    exists [StError m]. split; [reflexivity | right; exists m; reflexivity].
  - pose proof (validate_model_spec w d) as Hspec.
    destruct (validate_model w d) as [es | a] eqn:E; [ | congruence].
    rewrite (analysis_when_invalid w r j content Hr d es Hl E).
    eexists. split; [reflexivity | right; eexists; reflexivity].
Qed.

Lemma chat_count_app (t t' : list event) :
  chat_count (t ++ t') = (chat_count t + chat_count t')%nat.
Proof. unfold chat_count. rewrite filter_app, length_app. reflexivity. Qed.

Lemma no_chat_count (t : list event) : no_chat t = true -> chat_count t = 0%nat.
Proof.
  unfold no_chat, chat_count. induction t as [ | ev t IH ]; simpl; [reflexivity | ].
  destruct ev; simpl; try discriminate; exact IH.
Qed.

Lemma analysis_chat_count (w : world) (r j : string) :
  chat_count (snd (get_ollama_analysis r j w)) = 1%nat.
Proof.
  destruct (analysis_log w r j) as (rest & -> & [-> | [m ->]]); reflexivity.
Qed.

(** A result of the analyzer is the dump of a validated model. *)
Lemma result_is_a_dump (w : world) (r j : string) (res : dict) (t : list event) :
  get_ollama_analysis r j w = (Returned (Some res), t) ->
  exists a, res = model_dump a /\ t = [chat_request r j].
Proof.
  intros Hrun.
  destruct (success_or_failure w r j) as [(content & d & a & Hr & Hl & Hv) | Hf].
  - rewrite (analysis_when_valid w r j content Hr d a Hl Hv) in Hrun.
    injection Hrun as <- <-. exists a. split; reflexivity.
  - exfalso. exact (failure_gives_no_result w r j Hf res t Hrun).
Qed.

(** Every run of [get_ollama_analysis] makes one call to the model server and
    logs at most one message after it: on success, on each failure, and
    when an error leaves the function. *)
Theorem one_call_per_analysis (w : world) (resume_text jd_text : string) :
  chat_count (snd (get_ollama_analysis resume_text jd_text w)) = 1%nat
  /\ (List.length (snd (get_ollama_analysis resume_text jd_text w)) <= 2)%nat
  /\ hd_error (snd (get_ollama_analysis resume_text jd_text w))
     = Some (chat_request resume_text jd_text).
Proof.
  destruct (analysis_log w resume_text jd_text) as (rest & -> & [-> | [m ->]]);
    simpl; repeat split; lia.
Qed.

(** The click with both texts at hand, whatever the analyzer does. *)
Lemma on_click_with_both_texts (w : world) (jd_input resume_text : string) :
  jd_input <> "" -> resume_text <> "" ->
  on_click jd_input resume_text w =
  match get_ollama_analysis resume_text jd_input w with
  | (Returned (Some r), t) => (Returned tt, (t ++ [StResults r])%list)
  | (Returned None, t) => (Returned tt, t)
  | (Raised e, t) => (Raised e, t)
  end.
Proof.
  intros Hjd Hres. unfold on_click.
  destruct jd_input as [ | c1 s1 ]; [congruence | ].
  destruct resume_text as [ | c2 s2 ]; [congruence | ]. simpl. unfold bind.
  destruct (get_ollama_analysis (String c2 s2) (String c1 s1) w)
    as [[[r | ] | e] t] eqn:Hrun.
  - pose proof (result_has_the_five_keys w _ _ r t Hrun) as Hk.
    destruct r as [ | kv r ]; [discriminate Hk | ]. reflexivity.
  - unfold ret. rewrite app_nil_r. reflexivity.
  - reflexivity.
Qed.

(** A run of [main] calls the model server once when the button was pressed,
    the job description is not empty and the upload gave a text that is not
    empty, and never otherwise. *)
Theorem main_calls_the_model_exactly_when
    (w : world) (jd_input : string) (uploaded_file : option UploadedFile)
    (analyze_btn : bool) :
  chat_count (snd (main jd_input uploaded_file analyze_btn w))
  = match fst (upload_column uploaded_file w) with
    | Returned s => if analyze_btn && truthy jd_input && truthy s then 1%nat else 0%nat
    | Raised _ => 0%nat
    end.
Proof.
  pose proof (no_chat_count _ (upload_column_no_chat uploaded_file w)) as Hup.
  unfold main, bind.
  destruct (upload_column uploaded_file w) as [[s | e] t0]; simpl in *;
    [ | exact Hup].
  destruct analyze_btn; simpl.
  - destruct (truthy jd_input) eqn:Hjd; destruct (truthy s) eqn:Hs; simpl;
      try (rewrite on_click_guard;
           [simpl; rewrite chat_count_app, Hup; reflexivity
           | destruct jd_input, s; simpl in *; auto; discriminate ]).
    rewrite on_click_with_both_texts
      by (destruct jd_input, s; simpl in *; congruence).
    pose proof (analysis_chat_count w s jd_input) as Hone.
    destruct (get_ollama_analysis s jd_input w) as [[[r | ] | e] t]; simpl in *;
      rewrite ?chat_count_app, Hup, ?chat_count_app, Hone; reflexivity.
  - unfold ret. simpl. rewrite chat_count_app, Hup. reflexivity.
Qed.

(** With a job description and a resume text that are not empty, a click
    hands the resume text and the job description to the analyzer, in this
    order, and shows the results exactly when the analyzer returns a result
    (no result is ever withheld by the test of line 136); on a failure the
    page shows what the analyzer logged and nothing else. *)
Theorem click_with_both_texts
    (w : world) (jd_input : string) (uploaded_file : option UploadedFile)
    (s : string) (t0 : list event) :
  upload_column uploaded_file w = (Returned s, t0) ->
  jd_input <> "" -> s <> "" ->
  main jd_input uploaded_file true w =
  match get_ollama_analysis s jd_input w with
  | (Returned (Some r), t) => (Returned tt, (t0 ++ t ++ [StResults r])%list)
  | (Returned None, t) => (Returned tt, (t0 ++ t)%list)
  | (Raised e, t) => (Raised e, (t0 ++ t)%list)
  end.
Proof.
  intros Hup Hjd Hs. unfold main, bind. rewrite Hup.
  rewrite (on_click_with_both_texts w jd_input s Hjd Hs).
  destruct (get_ollama_analysis s jd_input w) as [[[r | ] | e] t]; reflexivity.
Qed.

(** At scenario A, with the resume read from a document. *)
Lemma click_with_both_texts_witness :
  main jd_A (Some sample_docx) true (full_world (Returned (Some response_A)))
  = (Returned tt,
     [chat_request ("Jane Doe" ++ nl ++ nl ++ "Python, Docker" ++ nl) jd_A;
      StResults (model_dump result_A)]).
Proof.
  rewrite (click_with_both_texts (full_world (Returned (Some response_A))) jd_A
             (Some sample_docx)
             ("Jane Doe" ++ nl ++ nl ++ "Python, Docker" ++ nl) []).
  - vm_compute. reflexivity.
  - vm_compute. reflexivity.
  - discriminate.
  - discriminate.
Defined.

(** An error that is no [Exception], such as an interrupt during the call,
    is not caught: it leaves [get_ollama_analysis] and the click that ran it,
    with the call logged and no message. *)
Theorem interrupt_leaves_the_analyzer
    (w : world) (resume_text jd_text class : string) :
  model_reply w resume_text jd_text = Raised (NotAnException class) ->
  get_ollama_analysis resume_text jd_text w
  = (Raised (NotAnException class), [chat_request resume_text jd_text])
  /\ (jd_text <> "" -> resume_text <> "" ->
      on_click jd_text resume_text w
      = (Raised (NotAnException class), [chat_request resume_text jd_text])).
Proof.
  intros Hr.
  assert (Hrun : get_ollama_analysis resume_text jd_text w
                 = (Raised (NotAnException class),
                    [chat_request resume_text jd_text])).
  { rewrite (analysis_when_chat_raises w resume_text jd_text _ Hr). reflexivity. }
  split; [exact Hrun | ]. intros Hjd Hres.
  rewrite (on_click_with_both_texts w jd_text resume_text Hjd Hres), Hrun.
  reflexivity.
Qed.

(** At a keyboard interrupt. *)
Lemma interrupt_leaves_the_analyzer_witness :
  on_click jd_A resume_A (mock_world (Raised (NotAnException "KeyboardInterrupt")))
  = (Raised (NotAnException "KeyboardInterrupt"), [chat_request resume_A jd_A]).
Proof.
  apply (interrupt_leaves_the_analyzer
           (mock_world (Raised (NotAnException "KeyboardInterrupt")))
           resume_A jd_A "KeyboardInterrupt" eq_refl); discriminate.
Defined.

(** ** What the analyzer reports *)

(** A response that is valid JSON but no object (an array, a string, a
    number, [null]) makes [AnalysisResult( **data )] raise a [TypeError]: the
    analysis fails with the message of line 95, not with a validation error
    and not with the message for malformed output. *)
Theorem non_object_response_is_a_type_error
    (w : world) (resume_text jd_text content : string) (v : pyobj) :
  model_reply w resume_text jd_text = Returned (Some content) ->
  json.loads content = Some v ->
  (forall d, v <> PyDict d) ->
  exists msg,
    get_ollama_analysis resume_text jd_text w
    = (Returned None,
       [chat_request resume_text jd_text;
        StError (FText "An unexpected error occurred: " (TypeError msg))]).
Proof.
  intros Hr Hl Hv. run_analyzer Hr. rewrite Hl.
  destruct v; simpl; try (eexists; reflexivity).
  exfalso. apply (Hv d). reflexivity.
Qed.

(** At an array of skills. *)
Lemma non_object_response_is_a_type_error_witness :
  exists msg,
    get_ollama_analysis resume_A jd_A (mock_world (Returned (Some response_array)))
    = (Returned None,
       [chat_request resume_A jd_A;
        StError (FText "An unexpected error occurred: " (TypeError msg))]).
Proof.
  apply (non_object_response_is_a_type_error
           (mock_world (Returned (Some response_array))) resume_A jd_A
           response_array (PyList [PyStr "Python"; PyStr "Docker"])).
  - reflexivity.
  - vm_compute. reflexivity.
  - discriminate.
Defined.

(** The message tells the errors of the model server apart by their class
    alone: an [ollama.ResponseError] is an API error; a JSON decoding error
    raised inside the client is reported as if the model had answered with
    text that is no JSON; any other [Exception] (a refused connection) is
    an unexpected error. The result is [None] each time. *)
Theorem server_errors_are_labelled (w : world) (resume_text jd_text : string) :
  (forall error,
      model_reply w resume_text jd_text = Raised (ResponseError error) ->
      get_ollama_analysis resume_text jd_text w
      = (Returned None,
         [chat_request resume_text jd_text;
          StError (FText "Ollama API Error: " (ResponseError error))]))
  /\ (model_reply w resume_text jd_text = Raised JSONDecodeError ->
      get_ollama_analysis resume_text jd_text w
      = (Returned None, [chat_request resume_text jd_text; StError parse_failure]))
  /\ (forall class msg,
         model_reply w resume_text jd_text = Raised (OtherException class msg) ->
         get_ollama_analysis resume_text jd_text w
         = (Returned None,
            [chat_request resume_text jd_text;
             StError (FText "An unexpected error occurred: "
                        (OtherException class msg))])).
Proof.
  repeat split; intros;
    match goal with
    | H : model_reply _ _ _ = Raised ?e |- _ =>
        rewrite (analysis_when_chat_raises w resume_text jd_text e H)
    end; reflexivity.
Qed.

(** At a refused connection. *)
Lemma server_errors_are_labelled_witness :
  get_ollama_analysis resume_A jd_A
    (mock_world (Raised (OtherException "ConnectionError" "connection refused")))
  = (Returned None,
     [chat_request resume_A jd_A;
      StError (FText "An unexpected error occurred: "
                 (OtherException "ConnectionError" "connection refused"))]).
Proof.
  exact (proj2 (proj2 (server_errors_are_labelled
                         (mock_world
                            (Raised (OtherException "ConnectionError"
                                       "connection refused")))
                         resume_A jd_A))
           "ConnectionError" "connection refused" eq_refl).
Defined.

(** No token starts with such a character, whatever follows it. *)
Lemma scan_token_none (c : ascii) (r : list ascii) :
  starts_no_token c = true -> json.scan_token c r = None.
Proof.
  destruct c as [[] [] [] [] [] [] [] []]; intros H;
    first [ discriminate H | vm_compute; reflexivity ].
Qed.

Lemma starts_no_token_not_whitespace (c : ascii) :
  starts_no_token c = true -> json.is_whitespace c = false.
Proof.
  unfold starts_no_token. destruct (json.is_whitespace c); [discriminate | reflexivity].
Qed.

Lemma loads_starts_no_token (c : ascii) (rest : string) :
  starts_no_token c = true -> json.loads (String c rest) = None.
Proof.
  intros H. unfold json.loads. simpl.
  rewrite (starts_no_token_not_whitespace c H), (scan_token_none c _ H).
  reflexivity.
Qed.

(** The response is parsed as it comes: nothing is stripped before
    [json.loads]. A response that starts with a character no JSON token
    starts with, such as the backquote of a Markdown fence or the first
    letter of a sentence, is reported as malformed output, whatever JSON may
    follow. *)
Theorem fenced_response_is_malformed
    (w : world) (resume_text jd_text : string) (c : ascii) (rest : string) :
  model_reply w resume_text jd_text = Returned (Some (String c rest)) ->
  starts_no_token c = true ->
  get_ollama_analysis resume_text jd_text w
  = (Returned None, [chat_request resume_text jd_text; StError parse_failure]).
Proof.
  intros Hr Hc.
  apply (analysis_when_not_json w resume_text jd_text (String c rest) Hr).
  apply loads_starts_no_token. exact Hc.
Qed.

(** At scenario A inside a Markdown fence. *)
Lemma fenced_response_is_malformed_witness :
  get_ollama_analysis resume_A jd_A (mock_world (Returned (Some response_fenced)))
  = (Returned None, [chat_request resume_A jd_A; StError parse_failure]).
Proof.
  apply (fenced_response_is_malformed
           (mock_world (Returned (Some response_fenced))) resume_A jd_A
           "`"%char ("``json" ++ nl ++ response_A ++ nl ++ "```")).
  - reflexivity.
  - reflexivity.
Defined.

(** ** The data model *)

Lemma str_list_injective (l l' : list string) : str_list l = str_list l' -> l = l'.
Proof.
  unfold str_list. intros H. injection H as H. revert l' H.
  induction l as [ | x l IH ]; intros [ | y l' ] H; simpl in H;
    try discriminate; [reflexivity | ].
  injection H as -> H. rewrite (IH l' H). reflexivity.
Qed.

(** Dumping a model and constructing it again gives the model back, in any
    world, with nothing logged; hence two models with the same dump are the
    same model. *)
Theorem dump_then_construct (w : world) (a : AnalysisResult) :
  AnalysisResult_new (PyDict (model_dump a)) w = (Returned a, [])
  /\ (forall b, model_dump a = model_dump b -> a = b).
Proof.
  split.
  - unfold AnalysisResult_new. rewrite validate_model_dump. reflexivity.
  - intros b H.
    pose proof (validate_model_dump w a) as Ha.
    rewrite H, validate_model_dump in Ha. congruence.
Qed.

(** ** The prompt *)

(** The two texts are put into the prompt as they are, with nothing that
    marks where one ends: a job description that goes on with the heading of
    the resume and a text [b] gives the request that the job description
    alone gives with [b] put before the resume. *)
Theorem prompt_does_not_delimit_the_texts (a b c : string) :
  user_prompt c (a ++ resume_heading ++ b)
  = user_prompt (b ++ resume_heading ++ c) a
  /\ chat_request c (a ++ resume_heading ++ b)
     = chat_request (b ++ resume_heading ++ c) a.
Proof.
  assert (H : user_prompt c (a ++ resume_heading ++ b)
              = user_prompt (b ++ resume_heading ++ c) a).
  { unfold user_prompt, unlines, resume_heading.
    cbn [String.concat]. rewrite !append_assoc.
    do 4 f_equal. }
  split; [exact H | ]. unfold chat_request, messages. rewrite H. reflexivity.
Qed.

(** ** Reading the upload *)

(** The loop of lines 25-26 stops at the first page that fails. *)
Lemma pdf_loop_fails (w : world) (e : exn) (p : PageObject)
    (after : list PageObject) :
  extract_text p = Raised e ->
  forall (before : list PageObject) (texts : list string) (acc : string),
    map extract_text before = map Returned texts ->
    for_each (before ++ p :: after) acc
      (fun text page => t <- ask (fun _ => extract_text page) ;; ret (text ++ t)) w
    = (Raised e, []).
Proof.
  intros Hp.
  set (body := fun text page =>
                 t <- ask (fun _ => extract_text page) ;; ret (text ++ t)).
  induction before as [ | q before IH ]; intros [ | t texts ] acc H;
    simpl in H; try discriminate.
  - simpl. unfold bind at 1. unfold body at 1. unfold bind, ask. rewrite Hp.
    reflexivity.
  - injection H as Hq Hrest.
    assert (Hb : body acc q w = (Returned (acc ++ t), [])).
    { unfold body, bind, ask, ret. rewrite Hq. reflexivity. }
    simpl. unfold bind at 1. rewrite Hb.
    rewrite (IH texts (acc ++ t) Hrest). reflexivity.
Qed.

(** When one page of a PDF cannot be read, [extract_text_from_pdf] raises
    the error of that page and gives no text at all: the text of the pages
    before it is lost, and the pages after it are not read. *)
Theorem pdf_page_failure_loses_the_text
    (w : world) (file : UploadedFile) (before after : list PageObject)
    (p : PageObject) (texts : list string) (e : exn) :
  pdf_pages w (file_bytes file) = Returned (before ++ p :: after)%list ->
  map extract_text before = map Returned texts ->
  extract_text p = Raised e ->
  extract_text_from_pdf file w = (Raised e, []).
Proof.
  intros Hpdf Hbefore Hp.
  unfold extract_text_from_pdf, bind at 1, ask at 1. rewrite Hpdf.
  rewrite (pdf_loop_fails w e p after Hp before texts "" Hbefore). reflexivity.
Qed.

(** At three pages, the second unreadable. *)
Lemma pdf_page_failure_loses_the_text_witness :
  extract_text_from_pdf sample_pdf (document_world broken_pages [])
  = (Raised (OtherException "PdfReadError" "bad stream"), []).
Proof.
  apply (pdf_page_failure_loses_the_text
           (document_world broken_pages []) sample_pdf
           [{| extract_text := Returned "Jane Doe" |}]
           [{| extract_text := Returned "Python, Docker" |}]
           {| extract_text := Raised (OtherException "PdfReadError" "bad stream") |}
           ["Jane Doe"]); reflexivity.
Defined.

(** The extractor that [main] runs on a file, by its type. *)
Lemma upload_column_when_extraction_raises
    (w : world) (f : UploadedFile) (e : exn) (t : list event) :
  (if String.eqb (file_type f) pdf_type then extract_text_from_pdf f
   else if String.eqb (file_type f) docx_type then extract_text_from_docx f
   else ret "") w = (Raised e, t) ->
  is_Exception e = true ->
  upload_column (Some f) w
  = (Returned "", (t ++ [StError (FText "Error extracting text: " e)])%list).
Proof.
  intros Hx He. unfold upload_column, try_except. rewrite Hx, He. reflexivity.
Qed.

(** An upload that cannot be read, because the document does not open or a
    part of it fails, leaves the resume text empty and shows the error; a
    click then ends in the warning that a text is missing, and the model
    server is not called. *)
Theorem unreadable_upload_is_reported
    (w : world) (f : UploadedFile) (e : exn) (jd_input : string) :
  (file_type f = pdf_type /\ extract_text_from_pdf f w = (Raised e, []))
  \/ (file_type f = docx_type /\ extract_text_from_docx f w = (Raised e, [])) ->
  is_Exception e = true ->
  upload_column (Some f) w
  = (Returned "", [StError (FText "Error extracting text: " e)])
  /\ main jd_input (Some f) true w
     = (Returned tt,
        [StError (FText "Error extracting text: " e); StWarning missing_input]).
Proof.
  intros Hx He.
  assert (Hup : upload_column (Some f) w
                = (Returned "", [StError (FText "Error extracting text: " e)])).
  { apply (upload_column_when_extraction_raises w f e [] ); [ | exact He].
    destruct Hx as [[Hty Hx] | [Hty Hx]]; rewrite Hty; simpl; exact Hx. }
  split; [exact Hup | ].
  unfold main, bind. rewrite Hup.
  rewrite (on_click_guard jd_input "" w (or_intror eq_refl)). reflexivity.
Qed.

(** At a PDF whose second page is unreadable. *)
Lemma unreadable_upload_is_reported_witness :
  main jd_A (Some sample_pdf) true (document_world broken_pages [])
  = (Returned tt,
     [StError (FText "Error extracting text: "
                 (OtherException "PdfReadError" "bad stream"));
      StWarning missing_input]).
Proof.
  apply (unreadable_upload_is_reported
           (document_world broken_pages []) sample_pdf
           (OtherException "PdfReadError" "bad stream") jd_A).
  - left. split; reflexivity.
  - reflexivity.
Defined.

(** A file whose type is neither that of a PDF nor that of a DOCX document
    is not read at all: whatever the readers would do with its bytes, no
    error is shown, the resume text stays empty, and a click ends in the
    warning that a text is missing. *)
Theorem unknown_type_is_not_read
    (w : world) (f : UploadedFile) (jd_input : string) :
  file_type f <> pdf_type -> file_type f <> docx_type ->
  upload_column (Some f) w = (Returned "", [])
  /\ main jd_input (Some f) true w = (Returned tt, [StWarning missing_input]).
Proof.
  intros Hpdf Hdocx.
  assert (Hup : upload_column (Some f) w = (Returned "", [])).
  { unfold upload_column, try_except.
    destruct (String.eqb_spec (file_type f) pdf_type) as [H | _]; [congruence | ].
    destruct (String.eqb_spec (file_type f) docx_type) as [H | _]; [congruence | ].
    reflexivity. }
  split; [exact Hup | ].
  unfold main, bind. rewrite Hup.
  rewrite (on_click_guard jd_input "" w (or_intror eq_refl)). reflexivity.
Qed.

(** At a DOCX file sent as [application/octet-stream], in a world that could
    read it. *)
Lemma unknown_type_is_not_read_witness :
  main jd_A (Some sample_unknown) true (full_world (Returned (Some response_A)))
  = (Returned tt, [StWarning missing_input]).
Proof.
  apply (unknown_type_is_not_read
           (full_world (Returned (Some response_A))) sample_unknown jd_A);
    discriminate.
Defined.

Lemma concat_all_empty (pages : list PageObject) :
  concat_all (map (fun _ => "") pages) = "".
Proof. induction pages as [ | p pages IH ]; simpl; [reflexivity | exact IH]. Qed.

(** A PDF whose pages all give the empty text, as scanned pages do, counts
    as no resume: no error is shown for it, and a click ends in the warning
    that a text is missing, without a call to the model server. *)
Theorem scanned_pdf_counts_as_no_resume
    (w : world) (f : UploadedFile) (pages : list PageObject) (jd_input : string) :
  file_type f = pdf_type ->
  pdf_pages w (file_bytes f) = Returned pages ->
  (forall p, In p pages -> extract_text p = Returned "") ->
  upload_column (Some f) w = (Returned "", [])
  /\ main jd_input (Some f) true w = (Returned tt, [StWarning missing_input]).
Proof.
  intros Hty Hpdf Hpages.
  assert (Hx : extract_text_from_pdf f w = (Returned "", [])).
  { unfold extract_text_from_pdf, bind at 1, ask at 1. rewrite Hpdf.
    rewrite (pdf_loop w pages (map (fun _ => "") pages) "").
    - rewrite concat_all_empty. reflexivity.
    - rewrite map_map. apply map_ext_in. exact Hpages. }
  assert (Hup : upload_column (Some f) w = (Returned "", [])).
  { unfold upload_column, try_except. rewrite Hty. simpl. rewrite Hx. reflexivity. }
  split; [exact Hup | ].
  unfold main, bind. rewrite Hup.
  rewrite (on_click_guard jd_input "" w (or_intror eq_refl)). reflexivity.
Qed.

(** At a PDF of two scanned pages. *)
Lemma scanned_pdf_counts_as_no_resume_witness :
  main jd_A (Some sample_pdf) true (document_world scanned_pages [])
  = (Returned tt, [StWarning missing_input]).
Proof.
  apply (scanned_pdf_counts_as_no_resume
           (document_world scanned_pages []) sample_pdf scanned_pages jd_A).
  - reflexivity.
  - reflexivity.
  - intros p Hp. simpl in Hp. destruct Hp as [<- | [<- | []]]; reflexivity.
Defined.

(** ** The results block *)

Lemma item_texts_strings (l : list string) : item_texts (map PyStr l) = Some l.
Proof.
  induction l as [ | x l IH ]; simpl; [reflexivity | rewrite IH; reflexivity].
Qed.

Lemma texts_str_list (l : list string) : texts (str_list l) = done l.
Proof. unfold texts, str_list. rewrite item_texts_strings. reflexivity. Qed.

(** The loop of lines 163-164 shows one line for each item, in order. *)
Lemma show_each_lines (line : string -> string) (l : list string) :
  show_each l line = (Done tt, map (fun x => Markdown (line x)) l).
Proof.
  induction l as [ | x l IH ]; simpl; [reflexivity | ].
  unfold rbind, show. rewrite IH. reflexivity.
Qed.

Lemma delta_color_below_50 (z : Z) :
  (if 80 <=? z then "normal" else if z <? 50 then "inverse" else "normal")
  = (if z <? 50 then "inverse" else "normal").
Proof.
  destruct (Z.leb_spec 80 z); destruct (Z.ltb_spec z 50); try reflexivity. lia.
Qed.

(** On the dump of a validated model the results block completes: no key is
    missing and no value has a type that Python cannot show. The page holds
    the score in decimal with a percent sign, whatever the score (nothing is
    clipped to 0..100), coloured [inverse] exactly when the score is below
    50 (the test of line 148 changes nothing); one badge chosen by the
    status, every status outside the two named ones as an info box; one
    line for each recommended improvement, in order; and the skills joined
    by spaces, or the text for an empty list. *)
Theorem results_block_of_a_dump (a : AnalysisResult) :
  results_block (model_dump a) = (Done tt, page a).
Proof.
  destruct a as [z existing missing tips status].
  unfold results_block, page, badge, getitem, model_dump.
  cbn [dict_get String.eqb Ascii.eqb Bool.eqb].
  cbn [matching_score existing_skills missing_skills recommended_improvements
         suitability_status].
  cbv beta iota zeta delta [rbind show done number status_text fst snd].
  rewrite delta_color_below_50.
  rewrite texts_str_list.
  cbv beta iota zeta delta [rbind show done fst snd].
  rewrite show_each_lines.
  cbv beta iota zeta delta [rbind show done fst snd].
  rewrite texts_str_list.
  cbv beta iota zeta delta [rbind show done fst snd].
  rewrite texts_str_list.
  cbv beta iota zeta delta [rbind show done fst snd].
  destruct existing as [ | e1 existing ]; destruct missing as [ | m1 missing ];
    reflexivity.
Qed.

(** The log of reading an upload: nothing, or one error message. *)
Lemma upload_column_log (uploaded_file : option UploadedFile) (w : world) :
  snd (upload_column uploaded_file w) = []
  \/ exists m, snd (upload_column uploaded_file w) = [StError m].
Proof.
  destruct uploaded_file as [f | ]; [ | left; reflexivity].
  unfold upload_column, try_except.
  assert (H : forall c : M string,
             snd (c w) = [] ->
             let out :=
               match c w with
               | (Returned a, t) => (Returned a, t)
               | (Raised e, t) =>
                   let (r, t') :=
                     (if is_Exception e
                      then st_error (FText "Error extracting text: " e) ;;;
                           ret ""
                      else raise e) w in
                   (r, (t ++ t')%list)
               end in
             snd out = [] \/ exists m, snd out = [StError m]).
  { intros c Hc. destruct (c w) as [[a | e] t]; simpl in Hc; subst t; simpl.
    - left. reflexivity.
    - destruct (is_Exception e); simpl; eauto. }
  apply H.
  destruct (String.eqb (file_type f) pdf_type).
  - apply extract_text_from_pdf_logs_nothing.
  - destruct (String.eqb (file_type f) docx_type).
    + apply extract_text_from_docx_logs_nothing.
    + reflexivity.
Qed.

(** Whatever results a run of [main] shows are the dump of a model that
    pydantic validated, so the results block completes on them: it never
    stops at a missing key or at a value it cannot show. *)
Theorem shown_results_render
    (w : world) (jd_input : string) (uploaded_file : option UploadedFile)
    (analyze_btn : bool) (r : dict) :
  In (StResults r) (snd (main jd_input uploaded_file analyze_btn w)) ->
  exists a, r = model_dump a /\ results_block r = (Done tt, page a).
Proof.
  assert (Hup : forall t0,
             (t0 = [] \/ exists m, t0 = [StError m]) -> ~ In (StResults r) t0).
  { intros t0 [-> | [m ->]]; simpl; intuition discriminate. }
  pose proof (Hup _ (upload_column_log uploaded_file w)) as Hno.
  unfold main, bind.
  destruct (upload_column uploaded_file w) as [[s | e] t0]; simpl in *;
    [ | tauto].
  destruct analyze_btn.
  - destruct (String.string_dec jd_input "") as [-> | Hjd];
      [ | destruct (String.string_dec s "") as [-> | Hs] ].
    + rewrite (on_click_guard "" s w (or_introl eq_refl)). simpl.
      rewrite in_app_iff. simpl. intuition discriminate.
    + rewrite (on_click_guard jd_input "" w (or_intror eq_refl)). simpl.
      rewrite in_app_iff. simpl. intuition discriminate.
    + rewrite (on_click_with_both_texts w jd_input s Hjd Hs).
      pose proof (analysis_log w s jd_input) as (rest & Hlog & Hrest).
      assert (Hreq : ~ In (StResults r) (chat_request s jd_input :: rest)).
      { intros [H | H]; [discriminate H | exact (Hup rest Hrest H)]. }
      destruct (get_ollama_analysis s jd_input w) as [[[res | ] | e] t] eqn:Hrun;
        simpl in Hlog; subst t; simpl; intros Hin;
        apply in_app_or in Hin; destruct Hin as [Hin | Hin]; try tauto.
      destruct Hin as [Hin | Hin]; [discriminate Hin | ].
      apply in_app_or in Hin. destruct Hin as [Hin | [Hin | []]].
      { exfalso. exact (Hup rest Hrest Hin). }
      injection Hin as <-.
      destruct (result_is_a_dump w s jd_input res _ Hrun) as (a & -> & _).
      exists a. split; [reflexivity | apply results_block_of_a_dump].
  - unfold ret. simpl. rewrite app_nil_r. tauto.
Qed.

(** At scenario A, with the resume read from a document. *)
Lemma shown_results_render_witness :
  exists a,
    model_dump result_A = model_dump a
    /\ results_block (model_dump result_A) = (Done tt, page a).
Proof.
  apply (shown_results_render (full_world (Returned (Some response_A))) jd_A
           (Some sample_docx) true (model_dump result_A)).
  vm_compute. right. left. reflexivity.
Defined.

(** ** Validation errors and the guard, once more *)

Lemma missing_field_in_errors (w : world) (d : dict) (name : string) :
  In name field_names ->
  dict_get d name = None ->
  exists es,
    validate_model w d = inl es
    /\ In {| loc := (name, None); kind := Missing |} es.
Proof.
  intros Hin Hnone. unfold validate_model.
  assert (Hreq : forall A (v : string -> pyobj -> validation A),
             required d name v = inl (wrong name None Missing)).
  { intros A v. unfold required. rewrite Hnone. reflexivity. }
  simpl in Hin. destruct Hin as [<- | [<- | [<- | [<- | [<- | []]]]]];
    rewrite Hreq;
    repeat match goal with
           | |- context [required ?d' ?n ?v] => destruct (required d' n v)
           end;
    (eexists; split; [reflexivity | ]);
    unfold wrong, errors_of; rewrite ?in_app_iff; simpl; tauto.
Qed.

(** The message of a schema violation names every field that is missing, not
    only the first: pydantic gathers the errors of all the fields. *)
Theorem every_missing_field_is_reported
    (w : world) (resume_text jd_text content : string) (d : dict) :
  model_reply w resume_text jd_text = Returned (Some content) ->
  json.loads content = Some (PyDict d) ->
  (exists name, In name field_names /\ dict_get d name = None) ->
  exists es,
    get_ollama_analysis resume_text jd_text w
    = (Returned None,
       [chat_request resume_text jd_text;
        StError (FText "An unexpected error occurred: " (ValidationError es))])
    /\ forall name,
        In name field_names -> dict_get d name = None ->
        In {| loc := (name, None); kind := Missing |} es.
Proof.
  intros Hr Hl (name0 & Hin0 & Hnone0).
  destruct (missing_field_in_errors w d name0 Hin0 Hnone0) as (es & Hes & _).
  exists es. split.
  - apply (analysis_when_invalid w resume_text jd_text content Hr d es Hl Hes).
  - intros name Hin Hnone.
    destruct (missing_field_in_errors w d name Hin Hnone) as (es' & Hes' & H).
    congruence.
Qed.

(** At the empty object: five errors, one for each field. *)
Lemma every_missing_field_is_reported_witness :
  exists es,
    get_ollama_analysis resume_A jd_A (mock_world (Returned (Some "{}")))
    = (Returned None,
       [chat_request resume_A jd_A;
        StError (FText "An unexpected error occurred: " (ValidationError es))])
    /\ forall name,
        In name field_names -> dict_get [] name = None ->
        In {| loc := (name, None); kind := Missing |} es.
Proof.
  apply (every_missing_field_is_reported
           (mock_world (Returned (Some "{}"))) resume_A jd_A "{}" []).
  - reflexivity.
  - vm_compute. reflexivity.
  - exists "matching_score". split; [left; reflexivity | reflexivity].
Defined.

Lemma append_not_empty (a b : string) (c : ascii) : a ++ String c b <> "".
Proof. destruct a; simpl; discriminate. Qed.

(** A DOCX document with at least one paragraph always passes the guard,
    even when every paragraph is empty (as in a blank document): its text
    holds a line feed for each paragraph, so with a job description a click
    sends it to the model server. A PDF without text, by contrast, is
    stopped by the guard. *)
Theorem docx_with_a_paragraph_is_analysed
    (w : world) (f : UploadedFile) (p : Paragraph) (ps : list Paragraph)
    (jd_input : string) :
  file_type f = docx_type ->
  docx_paragraphs w (file_bytes f) = Returned (p :: ps) ->
  jd_input <> "" ->
  let resume_text := concat_all (map (fun q => text q ++ nl) (p :: ps)) in
  resume_text <> ""
  /\ upload_column (Some f) w = (Returned resume_text, [])
  /\ hd_error (snd (main jd_input (Some f) true w))
     = Some (chat_request resume_text jd_input)
  /\ chat_count (snd (main jd_input (Some f) true w)) = 1%nat.
Proof.
  intros Hty Hdoc Hjd resume_text.
  assert (Hne : resume_text <> "").
  { unfold resume_text. simpl. rewrite append_assoc. apply append_not_empty. }
  assert (Hup : upload_column (Some f) w = (Returned resume_text, [])).
  { unfold upload_column, try_except. rewrite Hty. simpl.
    unfold extract_text_from_docx, bind at 1, ask at 1. rewrite Hdoc.
    rewrite docx_loop. reflexivity. }
  split; [exact Hne | ]. split; [exact Hup | ].
  unfold main, bind. rewrite Hup.
  rewrite (on_click_with_both_texts w jd_input resume_text Hjd Hne).
  destruct (analysis_log w resume_text jd_input) as (rest & Hlog & Hrest).
  destruct (get_ollama_analysis resume_text jd_input w) as [[[r | ] | e] t];
    simpl in Hlog; subst t;
    destruct Hrest as [-> | [m ->]]; split; reflexivity.
Qed.

(** At a blank document of one empty paragraph. *)
Lemma docx_with_a_paragraph_is_analysed_witness :
  chat_count
    (snd (main jd_A (Some sample_docx) true
            (document_world [] [{| text := "" |}]))) = 1%nat.
Proof.
  apply (docx_with_a_paragraph_is_analysed
           (document_world [] [{| text := "" |}]) sample_docx
           {| text := "" |} [] jd_A); [reflexivity | reflexivity | discriminate].
Defined.
